(** * HAR: sample buffer, feature extraction and the classification loop

    A shallow embedding of the core of the repository:

    - [types.ts]            the records [SensorData], [ProcessedFeatures],
                            [ActivityPrediction] and the enum [AppState];
    - [hooks/useSensors.ts] [handleMotion] (the sliding window),
                            [processBuffer] (mean and standard deviation per
                            channel), [startRecording], [stopRecording],
                            [toggleSimulation];
    - [services/aiService.ts] [classifyActivity];
    - [App.tsx]             [handleStart], [handleStop] and the analysis
                            interval.

    JavaScript numbers are IEEE 754 binary64.  The arithmetic the code uses
    is collected in the class [Number], with two instances: [float64], the
    primitive binary64 floats (the code as it runs), and [exact], the real
    numbers (the arithmetic the reference formulas of the specification are
    written in).

    The page is event driven and single threaded: every callback (a motion
    event, a tick of the analysis interval, the settling of a backend call,
    a press on start or stop) runs to its end or to its [await] before the
    next one starts.  [step] applies one callback to the state of the page
    and [run] a sequence of them.  The presentation components and the data
    collection panel are left out. *)

From Stdlib Require Import ZArith List Floats Reals Lra Lia Bool.
From Stdlib Require Decimal DecimalString DecimalNat DecimalFacts Ascii.
From stdpp Require Import base option list strings gmap.

(** ** Numbers *)

Class Number (num : Type) : Type := {
  (** the literal [0] *)
  nzero : num;
  (** [a + b], [a - b], [a / b] *)
  nadd : num -> num -> num;
  nsub : num -> num -> num;
  ndiv : num -> num -> num;
  (** [Math.pow(x, 2)] *)
  npow2 : num -> num;
  (** [Math.sqrt(x)] *)
  nsqrt : num -> num;
  (** [arr.length] read as a number *)
  nlength : nat -> num;
  (** truthiness: every number but [0], [-0] and [NaN] *)
  ntruthy : num -> bool
}.

(** binary64: [+], [-], [/] and [Math.sqrt] are the correctly rounded
    IEEE 754 operations.  [Math.pow(x, 2)] is taken as the correctly rounded
    square [x * x] (ECMAScript leaves the last bit of [Math.pow] to the
    implementation). *)
#[export] Instance float64 : Number float := {
  nzero := 0%float;
  nadd := PrimFloat.add;
  nsub := PrimFloat.sub;
  ndiv := PrimFloat.div;
  npow2 := fun x => PrimFloat.mul x x;
  nsqrt := PrimFloat.sqrt;
  nlength := fun n => PrimFloat.of_uint63 (Uint63.of_Z (Z.of_nat n));
  ntruthy := fun x => negb (PrimFloat.eqb x 0%float || PrimFloat.is_nan x)
}.

(** Exact arithmetic over the reals. *)
#[export] Instance exact : Number R := {
  nzero := 0%R;
  nadd := Rplus;
  nsub := Rminus;
  ndiv := Rdiv;
  npow2 := fun x => (x ^ 2)%R;
  nsqrt := sqrt;
  nlength := INR;
  ntruthy := fun x => if Req_dec_T x 0%R then false else true
}.

(** ** types.ts *)

Section Types.
Context {num : Type}.

Record SensorData : Type := mkSensorData {
  x : num;
  y : num;
  z : num;
  alpha : num;
  beta : num;
  gamma : num;
  timestamp : Z
}.

Record ProcessedFeatures : Type := mkProcessedFeatures {
  acc_x_mean : num;
  acc_x_std : num;
  acc_y_mean : num;
  acc_y_std : num;
  acc_z_mean : num;
  acc_z_std : num;
  gyro_alpha_mean : num;
  gyro_alpha_std : num;
  gyro_beta_mean : num;
  gyro_beta_std : num;
  gyro_gamma_mean : num;
  gyro_gamma_std : num
}.

Record ActivityPrediction : Type := mkActivityPrediction {
  activity : string;
  confidence : num;
  emoji : string;
  reasoning : string;
  prediction_timestamp : Z
}.
End Types.

Arguments SensorData : clear implicits.
Arguments ProcessedFeatures : clear implicits.
Arguments ActivityPrediction : clear implicits.

Inductive AppState : Type := IDLE | RECORDING | ANALYZING | ERROR.

(** ** hooks/useSensors.ts *)

Definition SAMPLE_RATE_MS : Z := 50.
Definition MAX_BUFFER_SIZE : nat := 100.

Section UseSensors.
Context {num : Type} `{Number num}.

(** [const mean = (arr) => arr.reduce((a, b) => a + b, 0) / arr.length] *)
Definition mean (arr : list num) : num :=
  ndiv (fold_left nadd arr nzero) (nlength (length arr)).

(** [const std = (arr, meanVal) =>
      Math.sqrt(arr.map(x => Math.pow(x - meanVal, 2))
                   .reduce((a, b) => a + b, 0) / arr.length)] *)
Definition std (arr : list num) (meanVal : num) : num :=
  nsqrt (ndiv (fold_left nadd (map (fun x => npow2 (nsub x meanVal)) arr) nzero)
              (nlength (length arr))).

(** [processBuffer], exposed by the hook as [getFeatures]; [data] is
    [bufferRef.current] and [None] is [null]. *)
Definition processBuffer (data : list (SensorData num))
  : option (ProcessedFeatures num) :=
  if (length data <? 40)%nat then None
  else
    let accX := map x data in
    let accY := map y data in
    let accZ := map z data in
    let gyroA := map alpha data in
    let gyroB := map beta data in
    let gyroG := map gamma data in
    let xMean := mean accX in
    let yMean := mean accY in
    let zMean := mean accZ in
    let aMean := mean gyroA in
    let bMean := mean gyroB in
    let gMean := mean gyroG in
    Some {| acc_x_mean := xMean;
            acc_x_std := std accX xMean;
            acc_y_mean := yMean;
            acc_y_std := std accY yMean;
            acc_z_mean := zMean;
            acc_z_std := std accZ zMean;
            gyro_alpha_mean := aMean;
            gyro_alpha_std := std gyroA aMean;
            gyro_beta_mean := bMean;
            gyro_beta_std := std gyroB bMean;
            gyro_gamma_mean := gMean;
            gyro_gamma_std := std gyroG gMean |}.

(** A [DeviceMotionEvent]: either group may be [null], and so may each
    reading inside a group. *)
Record Acceleration : Type := mkAcceleration {
  ev_x : option num; ev_y : option num; ev_z : option num }.
Record RotationRate : Type := mkRotationRate {
  ev_alpha : option num; ev_beta : option num; ev_gamma : option num }.
Record DeviceMotionEvent : Type := mkDeviceMotionEvent {
  accelerationIncludingGravity : option Acceleration;
  rotationRate : option RotationRate
}.

(** [v || 0] on a reading that may be [null] *)
Definition orZero (v : option num) : num :=
  match v with
  | Some n => if ntruthy n then n else nzero
  | None => nzero
  end.

(** The sample [newData] that [handleMotion] builds from an event received
    at [Date.now() = now]. *)
Definition newData (event : DeviceMotionEvent) (now : Z) : SensorData num :=
  let acc := default (mkAcceleration (Some nzero) (Some nzero) (Some nzero))
                     (accelerationIncludingGravity event) in
  let rot := default (mkRotationRate (Some nzero) (Some nzero) (Some nzero))
                     (rotationRate event) in
  {| x := orZero (ev_x acc);
     y := orZero (ev_y acc);
     z := orZero (ev_z acc);
     alpha := orZero (ev_alpha rot);
     beta := orZero (ev_beta rot);
     gamma := orZero (ev_gamma rot);
     timestamp := now |}.

(** [bufferRef.current.push(newData)] followed by the guarded [shift()] *)
Definition pushSample (buffer : list (SensorData num)) (d : SensorData num)
  : list (SensorData num) :=
  let pushed := buffer ++ [d] in
  if (MAX_BUFFER_SIZE <? length pushed)%nat then tail pushed else pushed.
End UseSensors.

Section Hook.
Context {num : Type} `{Number num}.

(** The state of one [useSensors] hook: its [useState] cells and
    [bufferRef.current]. *)
Record Sensors : Type := mkSensors {
  isRecording : bool;
  permissionGranted : bool;
  isSimulating : bool;
  currentData : SensorData num;
  bufferRef : list (SensorData num)
}.

Definition initialSensors : Sensors :=
  {| isRecording := false;
     permissionGranted := false;
     isSimulating := false;
     currentData := mkSensorData nzero nzero nzero nzero nzero nzero 0;
     bufferRef := [] |}.

(** [handleMotion(event)], called at [Date.now() = now] by the
    [devicemotion] listener or by the simulation interval. *)
Definition handleMotion (event : DeviceMotionEvent) (now : Z) (h : Sensors)
  : Sensors :=
  let d := newData event now in
  {| isRecording := isRecording h;
     permissionGranted := permissionGranted h;
     isSimulating := isSimulating h;
     currentData := d;
     bufferRef := if isRecording h then pushSample (bufferRef h) d
                  else bufferRef h |}.

Definition startRecording (h : Sensors) : Sensors :=
  {| isRecording := true;
     permissionGranted := permissionGranted h;
     isSimulating := isSimulating h;
     currentData := currentData h;
     bufferRef := bufferRef h |}.

Definition stopRecording (h : Sensors) : Sensors :=
  {| isRecording := false;
     permissionGranted := permissionGranted h;
     isSimulating := isSimulating h;
     currentData := currentData h;
     bufferRef := [] |}.

(** [requestPermissions()]; [granted] is what the permission prompt
    answers (always [true] where no prompt exists). *)
Definition requestPermissions (granted : bool) (h : Sensors) : Sensors :=
  {| isRecording := isRecording h;
     permissionGranted := permissionGranted h || granted;
     isSimulating := isSimulating h;
     currentData := currentData h;
     bufferRef := bufferRef h |}.

Definition toggleSimulation (h : Sensors) : Sensors :=
  {| isRecording := false;
     permissionGranted := permissionGranted h;
     isSimulating := negb (isSimulating h);
     currentData := currentData h;
     bufferRef := [] |}.

Definition getFeatures (h : Sensors) : option (ProcessedFeatures num) :=
  processBuffer (bufferRef h).
End Hook.

Arguments Sensors : clear implicits.

(** ** services/aiService.ts *)

(** How a call ends: with a value, or with a thrown [Error] (for an [async]
    function, a rejected promise). *)
Inductive Completion (A : Type) : Type :=
| Returns (value : A)
| Throws (message : string).
Arguments Returns {A} value.
Arguments Throws {A} message.

(** [process.env] *)
Record Env : Type := mkEnv {
  AI_API_KEY : option string;
  API_KEY : option string
}.

(** Truthiness of a string that may be [undefined] or [null]. *)
Definition truthy (s : option string) : bool :=
  match s with
  | Some s => negb (String.eqb s ""%string)
  | None => false
  end.

(** [s || undefined] *)
Definition orUndefined (s : option string) : option string :=
  if truthy s then s else None.

Definition NO_PREVIOUS_ACTIVITY : string := "None / Initializing"%string.

Section AiService.
Context {num : Type} `{Number num}.

(** The two things [classifyActivity] interpolates into its prompt: the
    [Previous Activity:] line and the twelve features (their rendering by
    [toFixed(2)] is not modelled). *)
Record Prompt : Type := mkPrompt {
  prompt_previousActivity : string;
  prompt_features : ProcessedFeatures num
}.

(** What [response.text] holds once [generateContent] resolves: nothing
    ([undefined] or the empty string), text on which [JSON.parse] throws,
    or text that [JSON.parse] turns into [result], read at the type the
    code casts it to. *)
Inductive ResponseText : Type :=
| TextFalsy
| TextNotJSON
| TextJSON (result : ActivityPrediction num).

(** How [await ai.models.generateContent(...)] ends. *)
Inductive GenerateContent : Type :=
| Rejected
| Fulfilled (text : ResponseText).

(** The part of [classifyActivity] that runs as soon as it is called, up to
    the [await]: the API-key guard and the prompt. *)
Definition classifyActivity_call (env : Env)
    (features : ProcessedFeatures num) (previousActivity : option string)
  : Completion Prompt :=
  if negb (truthy (AI_API_KEY env)) && negb (truthy (API_KEY env))
  then Throws "API Key is missing"%string
  else Returns {| prompt_previousActivity :=
                    if truthy previousActivity
                    then default NO_PREVIOUS_ACTIVITY previousActivity
                    else NO_PREVIOUS_ACTIVITY;
                  prompt_features := features |}.

(** The [try] block, resumed when the backend settles at
    [Date.now() = now]. *)
Definition tryBlock (outcome : GenerateContent) (now : Z)
  : Completion (ActivityPrediction num) :=
  match outcome with
  | Rejected => Throws "generateContent rejected"%string
  | Fulfilled TextFalsy => Throws "Empty response from AI service"%string
  | Fulfilled TextNotJSON => Throws "SyntaxError"%string
  | Fulfilled (TextJSON result) =>
      (* [{ ...result, timestamp: Date.now() }] *)
      Returns {| activity := activity result;
                 confidence := confidence result;
                 emoji := emoji result;
                 reasoning := reasoning result;
                 prediction_timestamp := now |}
  end.

(** The object the [catch] block returns. *)
Definition catchBlock (now : Z) : ActivityPrediction num :=
  {| activity := "Unknown"%string;
     confidence := nzero;
     emoji := "❓"%string;
     reasoning := "Could not connect to AI service."%string;
     prediction_timestamp := now |}.

Definition classifyActivity_settle (outcome : GenerateContent) (now : Z)
  : ActivityPrediction num :=
  match tryBlock outcome now with
  | Returns result => result
  | Throws _ => catchBlock now
  end.

(** [classifyActivity(features, previousActivity)], given how the backend
    call it makes will end. *)
Definition classifyActivity (env : Env) (features : ProcessedFeatures num)
    (previousActivity : option string)
    (outcome : GenerateContent) (now : Z)
  : Completion (ActivityPrediction num) :=
  match classifyActivity_call env features previousActivity with
  | Throws message => Throws message
  | Returns _ => Returns (classifyActivity_settle outcome now)
  end.

(** A backend outcome that is a failure: the [try] block throws. *)
Definition failed (outcome : GenerateContent) : bool :=
  match outcome with
  | Fulfilled (TextJSON _) => false
  | _ => true
  end.
End AiService.

Arguments Prompt : clear implicits.
Arguments ResponseText : clear implicits.
Arguments GenerateContent : clear implicits.

(** ** App.tsx *)

Definition ANALYSIS_INTERVAL_MS : Z := 2000.

Section App.
Context {num : Type} `{Number num}.

(** The state of the mounted [App]: the hook, the [useState] cells, the two
    refs, and the backend calls that have been made and not yet settled.
    [intervalRef] records whether the analysis interval is armed.  [sent]
    logs every prompt handed to the backend, oldest first. *)
Record App : Type := mkApp {
  sensors : Sensors num;
  appState : AppState;
  prediction : option (ActivityPrediction num);
  lastPredictionRef : option string;
  intervalRef : bool;
  inFlight : gmap nat (Prompt num);
  sent : list (Prompt num)
}.

Definition initial : App :=
  {| sensors := initialSensors;
     appState := IDLE;
     prediction := None;
     lastPredictionRef := None;
     intervalRef := false;
     inFlight := ∅;
     sent := [] |}.

(** The "AI Analysis Loop" effect, run after a render in which
    [isRecording] changed: the clean-up clears the interval and the body
    arms a new one while recording. *)
Definition analysisEffect (a : App) : App :=
  {| sensors := sensors a;
     appState := appState a;
     prediction := prediction a;
     lastPredictionRef := lastPredictionRef a;
     intervalRef := isRecording (sensors a);
     inFlight := inFlight a;
     sent := sent a |}.

(** [handleStart]; [granted] is the answer of the permission prompt, asked
    only when [!permissionGranted && !isSimulating].  The [await] of that
    answer is taken to end before anything else happens to the page; the
    effect follows because [isRecording] has changed. *)
Definition handleStart (granted : bool) (a : App) : App :=
  let asked :=
    if negb (permissionGranted (sensors a)) && negb (isSimulating (sensors a))
    then requestPermissions granted (sensors a)
    else sensors a in
  analysisEffect
    {| sensors := startRecording asked;
       appState := RECORDING;
       prediction := None;
       lastPredictionRef := None;
       intervalRef := intervalRef a;
       inFlight := inFlight a;
       sent := sent a |}.

(** [handleStop] *)
Definition handleStop (a : App) : App :=
  analysisEffect
    {| sensors := stopRecording (sensors a);
       appState := IDLE;
       prediction := prediction a;
       lastPredictionRef := None;
       intervalRef := false;
       inFlight := inFlight a;
       sent := sent a |}.

(** A call of one of the hook's functions from outside [App]: the motion
    listener, the simulation toggle. *)
Definition onSensors (f : Sensors num -> Sensors num) (a : App) : App :=
  {| sensors := f (sensors a);
     appState := appState a;
     prediction := prediction a;
     lastPredictionRef := lastPredictionRef a;
     intervalRef := intervalRef a;
     inFlight := inFlight a;
     sent := sent a |}.

(** The interval callback up to its [await]: it reads the features and, if
    there are any, calls [classifyActivity].  A call that gets past the
    API-key guard is in flight under a number no other call in flight
    has; a call that throws rejects the callback's promise and nothing
    else happens. *)
Definition tick (env : Env) (a : App) : App :=
  if intervalRef a then
    match getFeatures (sensors a) with
    | Some features =>
        match classifyActivity_call env features
                (orUndefined (lastPredictionRef a)) with
        | Returns prompt =>
            {| sensors := sensors a;
               appState := appState a;
               prediction := prediction a;
               lastPredictionRef := lastPredictionRef a;
               intervalRef := intervalRef a;
               inFlight := <[fresh (dom (inFlight a)) := prompt]> (inFlight a);
               sent := sent a ++ [prompt] |}
        | Throws _ => a
        end
    | None => a
    end
  else a.

(** The rest of the interval callback, resumed when call [id] settles:
    [setPrediction(result); lastPredictionRef.current = result.activity]. *)
Definition settle (id : nat) (outcome : GenerateContent num) (now : Z)
    (a : App) : App :=
  match inFlight a !! id with
  | Some _ =>
      let result := classifyActivity_settle outcome now in
      {| sensors := sensors a;
         appState := appState a;
         prediction := Some result;
         lastPredictionRef := Some (activity result);
         intervalRef := intervalRef a;
         inFlight := delete id (inFlight a);
         sent := sent a |}
  | None => a
  end.

(** Everything that can happen to the page, one callback at a time. *)
Inductive Event : Type :=
| Start (granted : bool)
| Stop
| ToggleSimulation
| Motion (event : DeviceMotionEvent (num:=num)) (now : Z)
| Tick
| Settle (id : nat) (outcome : GenerateContent num) (now : Z).

Definition step (env : Env) (a : App) (e : Event) : App :=
  match e with
  | Start granted => handleStart granted a
  | Stop => handleStop a
  | ToggleSimulation => analysisEffect (onSensors toggleSimulation a)
  | Motion event now => onSensors (handleMotion event now) a
  | Tick => tick env a
  | Settle id outcome now => settle id outcome now a
  end.

Definition run (env : Env) (a : App) (events : list Event) : App :=
  fold_left (step env) events a.

(** The prompts sent while [events] ran from [a]. *)
Definition sentDuring (env : Env) (a : App) (events : list Event)
  : list (Prompt num) :=
  drop (length (sent a)) (sent (run env a events)).
End App.

Arguments App : clear implicits.
Arguments Event : clear implicits.

(** ** Streams of samples *)

Section Feeding.
Context {num : Type} `{Number num}.

(** One motion event with the instant it is handled at. *)
Definition Arrival : Type := DeviceMotionEvent (num:=num) * Z.

(** The hook after the listener has handled [arrivals], oldest first. *)
Definition feed (arrivals : list Arrival) (h : Sensors num) : Sensors num :=
  fold_left (fun h e => handleMotion e.1 e.2 h) arrivals h.

(** The samples [handleMotion] makes of them. *)
Definition samplesOf (arrivals : list Arrival) : list (SensorData num) :=
  map (fun e => newData e.1 e.2) arrivals.

(** The same arrivals as events of the page. *)
Definition motions (arrivals : list Arrival) : list (Event num) :=
  map (fun e => Motion e.1 e.2) arrivals.

(** The [n] most recent elements of [l], in order. *)
Definition mostRecent {A : Type} (n : nat) (l : list A) : list A :=
  drop (length l - n) l.
End Feeding.

(** ** Responses that outlive their session *)

Section Stale.
Context {num : Type} `{Number num}.

(** [e] delivers the outcome of one of the calls numbered in [calls]. *)
Definition settles (calls : gset nat) (e : Event num) : bool :=
  match e with
  | Settle id _ _ => bool_decide (id ∈ calls)
  | _ => false
  end.

(** No event of [events] delivers the outcome of a call that was already
    in flight in [a]. *)
Definition noLateResponse (a : App num) (events : list (Event num)) : Prop :=
  Forall (fun e => settles (dom (inFlight a)) e = false) events.
End Stale.

(** ** Sample data *)

Definition withKey : Env := mkEnv (Some "key"%string) None.
Definition withoutKey : Env := mkEnv None (Some ""%string).

(** A motion event whose six readings are all [v]. *)
Definition reading (v : float) : DeviceMotionEvent (num:=float) :=
  mkDeviceMotionEvent (Some (mkAcceleration (Some v) (Some v) (Some v)))
                      (Some (mkRotationRate (Some v) (Some v) (Some v))).

(** [n] arrivals of the same reading, 50 ms apart from [t0]. *)
Fixpoint steady (v : float) (t0 : Z) (n : nat) : list (Arrival (num:=float)) :=
  match n with
  | O => []
  | S n => (reading v, t0) :: steady v (t0 + SAMPLE_RATE_MS) n
  end.

Definition walking : ActivityPrediction float :=
  {| activity := "Walking"%string;
     confidence := 92%float;
     emoji := "W"%string;
     reasoning := "Regular vertical oscillation."%string;
     prediction_timestamp := 0 |}.

(** A session that has sent its first request and still waits for the
    answer. *)
Definition awaitingFirstAnswer : App float :=
  run withKey initial ([Start true] ++ motions (steady 1%float 0 40) ++ [Tick]).

(** The same session after its first answer, "Walking", has arrived and
    forty more samples have come in; the next tick is due. *)
Definition afterFirstAnswer : App float :=
  run withKey awaitingFirstAnswer
      ([Settle 0 (Fulfilled (TextJSON walking)) 2300]
       ++ motions (steady 1%float 2000 40)).

(** The session of [awaitingFirstAnswer], stopped before the answer has
    arrived. *)
Definition stoppedWhileWaiting : App float := handleStop awaitingFirstAnswer.

(** Two ticks in a row, the backend answering neither in between. *)
Definition twoTicks : list (Event float) :=
  [Start true] ++ motions (steady 1%float 0 40) ++ [Tick; Tick].

(** What happens to a session started from [stoppedWhileWaiting]: the
    answer to the request of the stopped session arrives, then the new
    session fills its buffer and ticks. *)
Definition lateAnswerThenTick : list (Event float) :=
  [Settle 0 (Fulfilled (TextJSON walking)) 9000]
  ++ motions (steady 1%float 9050 40) ++ [Tick].

Definition zeroFeatures : ProcessedFeatures float :=
  let o := 0%float in mkProcessedFeatures o o o o o o o o o o o o.


(** The same without the late answer: forty samples and a tick. *)
Definition fillThenTick : list (Event float) :=
  motions (steady 1%float 9050 40) ++ [Tick].

(** ** The twelve features, channel by channel *)

Section Channels.
Context {num : Type}.

(** The six channels of a sample, and the mean and the standard deviation
    that [processBuffer] stores for each, in the same order. *)
Definition channels : list (SensorData num -> num) :=
  [x; y; z; alpha; beta; gamma].


End Channels.

(** ** Reference formulas

    The formulas of the specification, written over the reals: the
    arithmetic average of [v1..vn] and the population standard deviation
    (the squared deviations from the average are divided by [n], not by
    [n - 1]). *)

Fixpoint total (values : list R) : R :=
  match values with
  | [] => 0%R
  | v :: values => (v + total values)%R
  end.




(** The sum under the square root of [std], before the division. *)
Definition squaredDeviations {num : Type} `{Number num}
    (arr : list num) (meanVal : num) : num :=
  fold_left nadd (map (fun x => npow2 (nsub x meanVal)) arr) nzero.


(** ** Classes of binary64 values

    Read on the specification [Prim2SF x] of a primitive float [x]. *)

(** Not NaN, and of sign [sx] ([false] is [+]). *)
Definition signed (sx : bool) (f : spec_float) : Prop :=
  match f with
  | S754_nan => False
  | S754_zero s | S754_infinity s | S754_finite s _ _ => s = sx
  end.

(** Any value but NaN. *)
Definition notNaN (f : spec_float) : Prop := f <> S754_nan.

(** Zero or a finite non-zero number: what [Number.isFinite] accepts. *)
Definition isFinite (f : spec_float) : Prop :=
  match f with
  | S754_zero _ | S754_finite _ _ _ => True
  | _ => False
  end.

(** The largest length a JavaScript array can have. *)
Definition MAX_ARRAY_LENGTH : Z := 2 ^ 32 - 1.

(** [Number.isFinite(v)] for every element. *)
Definition allFinite (arr : list float) : Prop :=
  Forall (fun v => PrimFloat.is_finite v = true) arr.

(** Every channel value of every sample of the window is finite. *)
Definition finiteWindow (data : list (SensorData float)) : Prop :=
  Forall (fun c => allFinite (map c data)) channels.

(** A short window whose x channel has large, small and negative readings
    (the sum of the first two overflows), the other channels 0. *)
Definition mixedWindow : list (SensorData float) :=
  map (fun v => mkSensorData v 0%float 0%float 0%float 0%float 0%float 0)
      [0x1.999999999999ap-4; 0x1p+1023; 0x1p+1023; (-0x1.8p+0); 0x1p-1074; 0]%float.

(** ** Binary64 values as real numbers *)





(** ** Samples without NaN *)

(** No channel of the sample is NaN. *)
Definition withoutNaN (s : SensorData float) : Prop :=
  Forall (fun c => PrimFloat.is_nan (c s) = false) channels.

(** ** Events other than a press on start *)


(** ** What the environment offers as an API key *)

(** [process.env.AI_API_KEY || process.env.API_KEY], the key handed to the
    client. *)
Definition apiKey (env : Env) : option string :=
  if truthy (AI_API_KEY env) then AI_API_KEY env else API_KEY env.

(** ** components/ActivityCard.tsx *)

Section ActivityCardView.
Context {num : Type} `{Number num}.

(** What [ActivityCard] renders: the simulation stamp, the "Awaiting
    Motion" panel, the "Observing..." panel, and the panel of the
    prediction. *)
Record Card : Type := mkCard {
  simulationStamp : bool;
  awaitingMotion : bool;
  observing : bool;
  shownPrediction : option (ActivityPrediction num)
}.

Definition ActivityCard (prediction : option (ActivityPrediction num))
    (appState : AppState) (isSimulating : bool) : Card :=
  {| simulationStamp := isSimulating;
     awaitingMotion := match appState with IDLE => true | _ => false end;
     observing :=
       match appState with RECORDING | ANALYZING => true | _ => false end
       && negb (bool_decide (is_Some prediction));
     shownPrediction := prediction |}.

(** The card as [App] renders it. *)
Definition cardOf (a : App num) : Card :=
  ActivityCard (prediction a) (appState a) (isSimulating (sensors a)).
End ActivityCardView.

Arguments Card : clear implicits.

(** ** components/SensorCharts.tsx *)

Section SensorChartsView.
Context {num : Type}.

(** The updater the chart passes to [setHistory] each time [currentData]
    changes. *)
Definition pushHistory (prev : list (SensorData num))
    (currentData : SensorData num) : list (SensorData num) :=
  let newHistory := prev ++ [currentData] in
  if (50 <? length newHistory)%nat then tail newHistory else newHistory.

(** The history after the chart has been given the samples [shown] one
    after the other, the first of them at its mount. *)
Definition chartHistory (shown : list (SensorData num)) : list (SensorData num) :=
  fold_left pushHistory shown [].
End SensorChartsView.

(** ** components/DataCollector.tsx *)

Definition ACTIVITIES : list (string * string) :=
  [("Idle", "🧘"); ("Walking", "🚶"); ("Running", "🏃");
   ("Sitting", "🪑"); ("Standing", "🧍"); ("Jumping", "⬆️")]%string.

(** [n.toString()] for a natural number [n]. *)
Definition toString (n : nat) : string :=
  DecimalString.NilZero.string_of_uint (Nat.to_uint n).

(** [s.padStart(2, '0')] *)
Definition padStart2 (s : string) : string :=
  match String.length s with
  | 0 => "00"%string
  | 1 => String.append "0" s
  | _ => s
  end.

(** [formatTime(seconds)]; [seconds] is the counter [elapsedTime], a
    natural number. *)
Definition formatTime (seconds : nat) : string :=
  let mins := seconds / 60 in
  let secs := seconds mod 60 in
  String.append (padStart2 (toString mins))
                (String.append ":" (padStart2 (toString secs))).

(** The character [:]. *)
Definition colon : Ascii.ascii := Ascii.ascii_of_nat 58.

(** Reading a clock back: the text before the first colon and the text
    after it, each as a decimal number, the first counting minutes. *)
Fixpoint splitAtColon (s : string) : option (string * string) :=
  match s with
  | EmptyString => None
  | String c rest =>
      if Ascii.eqb c colon then Some (EmptyString, rest)
      else match splitAtColon rest with
           | Some (before, after) => Some (String c before, after)
           | None => None
           end
  end.

Definition readNat (s : string) : option nat :=
  match DecimalString.NilEmpty.uint_of_string s with
  | Some d => Some (Nat.of_uint d)
  | None => None
  end.

Definition readClock (s : string) : option nat :=
  match splitAtColon s with
  | Some (mins, secs) =>
      match readNat mins, readNat secs with
      | Some m, Some r => Some (m * 60 + r)
      | _, _ => None
      end
  | None => None
  end.

Section DataCollector.
Context {num : Type} `{Number num}.

(** A row of training data: [{ ...features, label, timestamp }]. *)
Record LabeledData : Type := mkLabeledData {
  row_features : ProcessedFeatures num;
  label : string;
  row_timestamp : Z
}.

(** The state of the mounted [DataCollector]: its [useState] cells,
    [dataBuffer.current], and its two intervals.  The collection interval,
    while armed, carries the label its callback closed over when
    [startCollection] made it. *)
Record Collector : Type := mkCollector {
  isCollecting : bool;
  selectedLabel : string;
  count : nat;
  elapsedTime : nat;
  sensorActive : bool;
  waitingForData : bool;
  dataBuffer : list LabeledData;
  collectionInterval : option string;
  timerArmed : bool
}.

Definition initialCollector : Collector :=
  {| isCollecting := false;
     selectedLabel := "Idle"%string;
     count := 0;
     elapsedTime := 0;
     sensorActive := false;
     waitingForData := false;
     dataBuffer := [];
     collectionInterval := None;
     timerArmed := false |}.

Definition startCollection (c : Collector) : Collector :=
  {| isCollecting := true;
     selectedLabel := selectedLabel c;
     count := count c;
     elapsedTime := 0;
     sensorActive := sensorActive c;
     waitingForData := true;
     dataBuffer := dataBuffer c;
     collectionInterval := Some (selectedLabel c);
     timerArmed := true |}.

Definition stopCollection (c : Collector) : Collector :=
  {| isCollecting := false;
     selectedLabel := selectedLabel c;
     count := count c;
     elapsedTime := elapsedTime c;
     sensorActive := sensorActive c;
     waitingForData := false;
     dataBuffer := dataBuffer c;
     collectionInterval := None;
     timerArmed := false |}.

(** The callback of the collection interval, run at [Date.now() = now]
    with what [getFeatures()] returns. *)
Definition collectionTick (features : option (ProcessedFeatures num)) (now : Z)
    (c : Collector) : Collector :=
  match collectionInterval c, features with
  | Some closedOver, Some f =>
      let rows := dataBuffer c
                  ++ [{| row_features := f; label := closedOver;
                         row_timestamp := now |}] in
      {| isCollecting := isCollecting c;
         selectedLabel := selectedLabel c;
         count := length rows;
         elapsedTime := elapsedTime c;
         sensorActive := sensorActive c;
         waitingForData := false;
         dataBuffer := rows;
         collectionInterval := collectionInterval c;
         timerArmed := timerArmed c |}
  | _, _ => c
  end.

(** The callback of the timer interval. *)
Definition timerTick (c : Collector) : Collector :=
  if timerArmed c then
    {| isCollecting := isCollecting c;
       selectedLabel := selectedLabel c;
       count := count c;
       elapsedTime := elapsedTime c + 1;
       sensorActive := sensorActive c;
       waitingForData := waitingForData c;
       dataBuffer := dataBuffer c;
       collectionInterval := collectionInterval c;
       timerArmed := timerArmed c |}
  else c.

(** A press on the button of activity [name]:
    [!isCollecting && setSelectedLabel(name)]. *)
Definition selectActivity (name : string) (c : Collector) : Collector :=
  if isCollecting c then c
  else
    {| isCollecting := isCollecting c;
       selectedLabel := name;
       count := count c;
       elapsedTime := elapsedTime c;
       sensorActive := sensorActive c;
       waitingForData := waitingForData c;
       dataBuffer := dataBuffer c;
       collectionInterval := collectionInterval c;
       timerArmed := timerArmed c |}.

(** [clearData]; [confirmed] is the answer to [confirm(...)]. *)
Definition clearData (confirmed : bool) (c : Collector) : Collector :=
  if confirmed then
    {| isCollecting := isCollecting c;
       selectedLabel := selectedLabel c;
       count := 0;
       elapsedTime := elapsedTime c;
       sensorActive := sensorActive c;
       waitingForData := waitingForData c;
       dataBuffer := [];
       collectionInterval := collectionInterval c;
       timerArmed := timerArmed c |}
  else c.

Definition setSensorActive (c : Collector) : Collector :=
  {| isCollecting := isCollecting c;
     selectedLabel := selectedLabel c;
     count := count c;
     elapsedTime := elapsedTime c;
     sensorActive := true;
     waitingForData := waitingForData c;
     dataBuffer := dataBuffer c;
     collectionInterval := collectionInterval c;
     timerArmed := timerArmed c |}.

(** The page in collection mode ([?mode=collect]): [App], whose hook the
    collector shares, and the collector. *)
Record CollectorPage : Type := mkCollectorPage {
  pageApp : App num;
  pageCollector : Collector
}.

Definition initialPage : CollectorPage :=
  {| pageApp := initial; pageCollector := initialCollector |}.

(** [activateSensors]; [granted] as in [handleStart].  The hook starts
    recording, so the analysis effect of [App] runs. *)
Definition activateSensors (granted : bool) (p : CollectorPage) : CollectorPage :=
  let ask (h : Sensors num) :=
    if negb (permissionGranted h) && negb (isSimulating h)
    then requestPermissions granted h else h in
  {| pageApp := analysisEffect (onSensors (fun h => startRecording (ask h)) (pageApp p));
     pageCollector := setSensorActive (pageCollector p) |}.

(** The "Simulate" button:
    [toggleSimulation(); setSensorActive(true); startRecording()]. *)
Definition simulateButton (p : CollectorPage) : CollectorPage :=
  {| pageApp := analysisEffect
              (onSensors (fun h => startRecording (toggleSimulation h)) (pageApp p));
     pageCollector := setSensorActive (pageCollector p) |}.

(** Everything that can happen to the page in collection mode.  The
    buttons are those the collector renders: an activity button per entry
    of [ACTIVITIES]; the record button once the sensors are active; "Clear
    All" while rows exist and no collection is running. *)
Inductive CollectorEvent : Type :=
| OfApp (e : Event num)
| ActivateSensors (granted : bool)
| Simulate
| SelectActivity (i : nat)
| RecordButton
| CollectionTick (now : Z)
| TimerTick
| ClearAll (confirmed : bool).

Definition stepPage (env : Env) (p : CollectorPage) (e : CollectorEvent)
  : CollectorPage :=
  let c := pageCollector p in
  let onCollector c' := {| pageApp := pageApp p; pageCollector := c' |} in
  match e with
  | OfApp e => {| pageApp := step env (pageApp p) e; pageCollector := c |}
  | ActivateSensors granted =>
      if sensorActive c then p else activateSensors granted p
  | Simulate => if sensorActive c then p else simulateButton p
  | SelectActivity i =>
      match ACTIVITIES !! i with
      | Some (name, _) =>
          if sensorActive c then onCollector (selectActivity name c) else p
      | None => p
      end
  | RecordButton =>
      if sensorActive c
      then onCollector (if isCollecting c then stopCollection c
                        else startCollection c)
      else p
  | CollectionTick now =>
      onCollector (collectionTick (getFeatures (sensors (pageApp p))) now c)
  | TimerTick => onCollector (timerTick c)
  | ClearAll confirmed =>
      if sensorActive c && negb ((count c =? 0)%nat || isCollecting c)
      then onCollector (clearData confirmed c) else p
  end.

Definition runPage (env : Env) (p : CollectorPage)
    (events : list CollectorEvent) : CollectorPage :=
  fold_left (stepPage env) events p.
End DataCollector.

Arguments LabeledData : clear implicits.
Arguments Collector : clear implicits.
Arguments CollectorPage : clear implicits.
Arguments CollectorEvent : clear implicits.

(** The names the collector offers as labels. *)
Definition activityNames : list string := map fst ACTIVITIES.

(** A collection: sensors activated, "Walking" chosen, recording started. *)
Definition walkingCollection : list (CollectorEvent float) :=
  [ActivateSensors true; SelectActivity 1; RecordButton].

(** ** More sample data *)

(** A session with forty samples buffered, its first tick due. *)
Definition readyToTick : App float :=
  run withKey initial ([Start true] ++ motions (steady 1%float 0 40)).

(** A recording hook that already holds thirty samples. *)
Definition partlyFilled : Sensors float :=
  feed (steady 1%float 0 30) (startRecording initialSensors).

(** A collection of "Walking" rows: forty samples, then one tick of the
    collection interval. *)
Definition walkingRun : list (CollectorEvent float) :=
  walkingCollection ++ map OfApp (motions (steady 1%float 0 40))
  ++ [CollectionTick 2000].



(** * Properties *)

(** ** The sample buffer *)

Section BufferFacts.
Context {num : Type} `{Number num}.
Implicit Types (h : Sensors num) (d : SensorData num).

Lemma mostRecent_length {A : Type} (n : nat) (l : list A) :
  length (mostRecent n l) = Nat.min (length l) n.
Proof. unfold mostRecent. rewrite length_drop. lia. Qed.

(** Pushing onto the window of a history gives the window of the longer
    history. *)
Lemma pushSample_mostRecent (hist : list (SensorData num)) d :
  pushSample (mostRecent MAX_BUFFER_SIZE hist) d
  = mostRecent MAX_BUFFER_SIZE (hist ++ [d]).
Proof.
  unfold pushSample, mostRecent, MAX_BUFFER_SIZE.
  rewrite !length_app, length_drop. cbn [length].
  destruct (Nat.ltb_spec 100 (length hist - (length hist - 100) + 1)) as [Hlt|Hge].
  - replace (length hist + 1 - 100) with (length hist - 100 + 1) by lia.
    rewrite <- drop_drop, (drop_app_le hist) by lia.
    destruct (drop (length hist - 100) hist ++ [d]); reflexivity.
  - replace (length hist + 1 - 100) with 0 by lia.
    replace (length hist - 100) with 0 by lia. reflexivity.
Qed.

Lemma feed_isRecording arrivals h :
  isRecording (feed arrivals h) = isRecording h.
Proof.
  revert h. induction arrivals as [|e arrivals IH]; intros h; [reflexivity|].
  change (feed (e :: arrivals) h) with (feed arrivals (handleMotion e.1 e.2 h)).
  rewrite IH. reflexivity.
Qed.

(** The invariant of the sliding window: while recording, the buffer is the
    window of everything pushed so far. *)
Lemma feed_window arrivals : forall h hist,
  isRecording h = true ->
  bufferRef h = mostRecent MAX_BUFFER_SIZE hist ->
  bufferRef (feed arrivals h)
  = mostRecent MAX_BUFFER_SIZE (hist ++ samplesOf arrivals).
Proof.
  induction arrivals as [|e arrivals IH]; intros h hist Hrec Hbuf.
  - cbn. rewrite app_nil_r. exact Hbuf.
  - change (feed (e :: arrivals) h) with (feed arrivals (handleMotion e.1 e.2 h)).
    change (samplesOf (e :: arrivals))
      with (newData e.1 e.2 :: samplesOf arrivals).
    rewrite (IH _ (hist ++ [newData e.1 e.2])).
    + rewrite <- app_assoc. reflexivity.
    + exact Hrec.
    + cbn. rewrite Hrec, Hbuf. apply pushSample_mostRecent.
Qed.

Lemma feed_from_empty h (arrivals : list Arrival) :
  isRecording h = true ->
  bufferRef h = [] ->
  bufferRef (feed arrivals h) = mostRecent MAX_BUFFER_SIZE (samplesOf arrivals).
Proof.
  intros Hrec Hbuf.
  rewrite (feed_window arrivals h []); [reflexivity|exact Hrec|].
  rewrite Hbuf. reflexivity.
Qed.

Lemma feed_length h (arrivals : list Arrival) :
  isRecording h = true ->
  bufferRef h = [] ->
  length (bufferRef (feed arrivals h)) = Nat.min (length arrivals) MAX_BUFFER_SIZE.
Proof.
  intros Hrec Hbuf. rewrite feed_from_empty by done.
  rewrite mostRecent_length. unfold samplesOf. rewrite length_map. reflexivity.
Qed.

(** C2. Starting from the empty buffer of a recording hook, after [N]
    samples have been appended one at a time the buffer holds
    [min N 100] samples, and they are exactly the most recent
    [min N 100] of the appended samples in arrival order: eviction is
    oldest first. *)
Theorem buffer_is_sliding_window (h : Sensors num) (arrivals : list Arrival) :
  isRecording h = true ->
  bufferRef h = [] ->
  length (bufferRef (feed arrivals h))
    = Nat.min (length arrivals) MAX_BUFFER_SIZE
  /\ bufferRef (feed arrivals h)
    = mostRecent (Nat.min (length arrivals) MAX_BUFFER_SIZE) (samplesOf arrivals)
  /\ exists evicted,
       samplesOf arrivals = evicted ++ bufferRef (feed arrivals h).
Proof.
  intros Hrec Hbuf.
  assert (Hw : bufferRef (feed arrivals h)
               = mostRecent MAX_BUFFER_SIZE (samplesOf arrivals))
    by (by apply feed_from_empty).
  assert (Hlen : length (samplesOf arrivals) = length arrivals).
  { unfold samplesOf. apply length_map. }
  split; [|split].
  - rewrite Hw, mostRecent_length, Hlen. reflexivity.
  - rewrite Hw. unfold mostRecent. f_equal. rewrite Hlen. lia.
  - exists (take (length (samplesOf arrivals) - MAX_BUFFER_SIZE) (samplesOf arrivals)).
    rewrite Hw. unfold mostRecent. symmetry. apply take_drop.
Qed.
End BufferFacts.

(** ** The extraction threshold *)

Section ThresholdFacts.
Context {num : Type} `{Number num}.

Lemma processBuffer_None (data : list (SensorData num)) :
  processBuffer data = None <-> length data < 40.
Proof.
  unfold processBuffer.
  destruct (Nat.ltb_spec (length data) 40); split; intros; try done; lia.
Qed.

Lemma processBuffer_Some (data : list (SensorData num)) :
  40 <= length data -> exists fv, processBuffer data = Some fv.
Proof.
  intros Hlen. destruct (processBuffer data) as [fv|] eqn:E; [by exists fv|].
  apply processBuffer_None in E. lia.
Qed.

(** C3. [processBuffer] returns [null] on a buffer of fewer than 40
    samples and a feature vector (the record of twelve numbers) on a
    buffer of 40 or more; in particular, from an empty buffer, extraction
    after 39 appended samples gives [null] and after one more gives a
    feature vector. *)
Theorem extraction_threshold
    (data : list (SensorData num)) (h : Sensors num)
    (arrivals : list Arrival) (e : Arrival) :
  (length data < 40 -> processBuffer data = None)
  /\ (40 <= length data -> exists fv, processBuffer data = Some fv)
  /\ (isRecording h = true -> bufferRef h = [] -> length arrivals = 39 ->
      getFeatures (feed arrivals h) = None
      /\ exists fv, getFeatures (feed (arrivals ++ [e]) h) = Some fv).
Proof.
  split; [apply processBuffer_None|].
  split; [apply processBuffer_Some|].
  intros Hrec Hbuf Hlen. unfold getFeatures. split.
  - apply processBuffer_None. rewrite feed_length by done.
    unfold MAX_BUFFER_SIZE. lia.
  - apply processBuffer_Some. rewrite feed_length by done.
    rewrite length_app. cbn [length]. unfold MAX_BUFFER_SIZE. lia.
Qed.
End ThresholdFacts.

(** ** Stopping and starting *)

Section LifecycleFacts.
Context {num : Type} `{Number num}.
Implicit Types (a : App num) (env : Env).

Lemma run_cons env a e events :
  run env a (e :: events) = run env (step env a e) events.
Proof. reflexivity. Qed.

(** Motion events only touch the hook. *)
Lemma run_motions env (arrivals : list Arrival) : forall a,
  sensors (run env a (motions arrivals)) = feed arrivals (sensors a)
  /\ lastPredictionRef (run env a (motions arrivals)) = lastPredictionRef a
  /\ prediction (run env a (motions arrivals)) = prediction a
  /\ inFlight (run env a (motions arrivals)) = inFlight a
  /\ sent (run env a (motions arrivals)) = sent a.
Proof.
  induction arrivals as [|e arrivals IH]; intros a; [done|].
  change (motions (e :: arrivals)) with (Motion e.1 e.2 :: motions arrivals).
  rewrite run_cons.
  destruct (IH (step env a (Motion e.1 e.2))) as (-> & -> & -> & -> & ->).
  done.
Qed.

(** C8. Whatever the state of the page, [handleStop] empties the buffer
    (window length 0) and clears the previous-activity context; and after
    a following [handleStart], feature extraction gives [null] as long as
    fewer than 40 samples have arrived, and a feature vector once 40
    have. *)
Theorem stop_resets_session env a (granted : bool) (arrivals : list Arrival) :
  let restarted := run env (handleStart granted (handleStop a)) (motions arrivals) in
  bufferRef (sensors (handleStop a)) = []
  /\ length (bufferRef (sensors (handleStop a))) = 0
  /\ lastPredictionRef (handleStop a) = None
  /\ getFeatures (sensors (handleStart granted (handleStop a))) = None
  /\ (length arrivals < 40 -> getFeatures (sensors restarted) = None)
  /\ (40 <= length arrivals ->
      exists fv, getFeatures (sensors restarted) = Some fv).
Proof.
  intros restarted.
  assert (Hrec : isRecording (sensors (handleStart granted (handleStop a))) = true)
    by reflexivity.
  assert (Hbuf : bufferRef (sensors (handleStart granted (handleStop a))) = []).
  { cbn. by destruct (_ && _). }
  assert (Hs : sensors restarted
               = feed arrivals (sensors (handleStart granted (handleStop a)))).
  { apply run_motions. }
  repeat split; try done.
  - unfold getFeatures. rewrite Hbuf. reflexivity.
  - intros Hlen. rewrite Hs. unfold getFeatures.
    apply processBuffer_None. rewrite feed_length by done. lia.
  - intros Hlen. rewrite Hs. unfold getFeatures.
    apply processBuffer_Some. rewrite feed_length by done.
    unfold MAX_BUFFER_SIZE. lia.
Qed.
End LifecycleFacts.

(** ** The classification call *)

Section ClassifyFacts.
Context {num : Type} `{Number num}.

Lemma failed_tryBlock (outcome : GenerateContent num) (now : Z) :
  failed outcome = true <-> exists message, tryBlock outcome now = Throws message.
Proof.
  destruct outcome as [|[| |result]]; cbn; split;
    try done; try (intros _; by eexists); by intros [? ?].
Qed.

Lemma failed_settle (outcome : GenerateContent num) (now : Z) :
  failed outcome = true -> classifyActivity_settle outcome now = catchBlock now.
Proof. by destruct outcome as [|[| |result]]. Qed.

(** C7, as the code has it. With an API key configured
    ([AI_API_KEY] or [API_KEY] non-empty), [classifyActivity] returns
    normally for every feature vector, previous activity and backend
    outcome, and a rejected call, an empty text and a text that is not
    JSON all give the degraded label of the [catch] block. With no key
    configured it throws "API Key is missing", whatever its inputs. *)
Theorem classifyActivity_faults (env : Env)
    (features : ProcessedFeatures num) (previousActivity : option string)
    (outcome : GenerateContent num) (now : Z) :
  (truthy (AI_API_KEY env) || truthy (API_KEY env) = true ->
     classifyActivity env features previousActivity outcome now
     = Returns (classifyActivity_settle outcome now)
     /\ (failed outcome = true ->
         classifyActivity env features previousActivity outcome now
         = Returns (catchBlock now)))
  /\ (truthy (AI_API_KEY env) || truthy (API_KEY env) = false ->
     classifyActivity env features previousActivity outcome now
     = Throws "API Key is missing"%string).
Proof.
  unfold classifyActivity, classifyActivity_call.
  destruct (truthy (AI_API_KEY env)), (truthy (API_KEY env)); cbn;
    split; try done; intros _; split; try done;
    intros Hf; by rewrite failed_settle.
Qed.
End ClassifyFacts.

(** C7 fails as stated: with no API key in the environment the call
    throws instead of returning a degraded label. *)
Lemma classifyActivity_throws_without_key :
  classifyActivity withoutKey zeroFeatures None Rejected 0
  = Throws "API Key is missing"%string
  /\ ~ exists label,
         classifyActivity withoutKey zeroFeatures None Rejected 0 = Returns label.
Proof. split; [reflexivity|]. intros [label Hl]. discriminate Hl. Qed.

Lemma classifyActivity_faults_witness :
  (classifyActivity withKey zeroFeatures (Some "Walking"%string) Rejected 7
   = Returns (classifyActivity_settle Rejected 7)
   /\ classifyActivity withKey zeroFeatures (Some "Walking"%string) Rejected 7
   = Returns (catchBlock 7))
  /\ classifyActivity withoutKey zeroFeatures (Some "Walking"%string) Rejected 7
     = Throws "API Key is missing"%string.
Proof.
  split.
  - destruct (classifyActivity_faults withKey zeroFeatures
                (Some "Walking"%string) Rejected 7) as [Hkey _].
    destruct (Hkey eq_refl) as [Hret Hfail].
    split; [exact Hret|exact (Hfail eq_refl)].
  - destruct (classifyActivity_faults withoutKey zeroFeatures
                (Some "Walking"%string) Rejected 7) as [_ Hno].
    exact (Hno eq_refl).
Defined.

(** ** The analysis loop *)

Section LoopFacts.
Context {num : Type} `{Number num}.
Implicit Types (a : App num) (env : Env) (e : Event num).

Lemma settle_in_flight id (outcome : GenerateContent num) now a :
  is_Some (inFlight a !! id) ->
  prediction (settle id outcome now a)
    = Some (classifyActivity_settle outcome now)
  /\ lastPredictionRef (settle id outcome now a)
    = Some (activity (classifyActivity_settle outcome now))
  /\ inFlight (settle id outcome now a) = delete id (inFlight a).
Proof. intros [p Hp]. unfold settle. rewrite Hp. done. Qed.

Lemma settle_not_in_flight id (outcome : GenerateContent num) now a :
  inFlight a !! id = None -> settle id outcome now a = a.
Proof. intros Hp. unfold settle. by rewrite Hp. Qed.

(** What a tick does, case by case. *)
Lemma tick_cases env a :
  tick env a = a
  \/ exists features prompt,
       intervalRef a = true
       /\ getFeatures (sensors a) = Some features
       /\ classifyActivity_call env features (orUndefined (lastPredictionRef a))
          = Returns prompt
       /\ inFlight (tick env a)
          = <[fresh (dom (inFlight a)) := prompt]> (inFlight a)
       /\ sent (tick env a) = sent a ++ [prompt]
       /\ lastPredictionRef (tick env a) = lastPredictionRef a
       /\ prediction (tick env a) = prediction a.
Proof.
  unfold tick. destruct (intervalRef a) eqn:Hi; [|by left].
  destruct (getFeatures (sensors a)) as [features|]; [|by left].
  destruct (classifyActivity_call _ _ _) as [prompt|] eqn:Hc; [|by left].
  right. exists features, prompt. done.
Qed.

Lemma fresh_not_in_flight a : inFlight a !! fresh (dom (inFlight a)) = None.
Proof. apply not_elem_of_dom, is_fresh. Qed.

(** A tick that finds the interval armed, an API key and at least 40
    buffered samples sends one request, under a number of its own. *)
Lemma tick_sends env a :
  intervalRef a = true ->
  truthy (AI_API_KEY env) || truthy (API_KEY env) = true ->
  40 <= length (bufferRef (sensors a)) ->
  exists prompt,
    inFlight (tick env a) = <[fresh (dom (inFlight a)) := prompt]> (inFlight a)
    /\ sent (tick env a) = sent a ++ [prompt]
    /\ lastPredictionRef (tick env a) = lastPredictionRef a
    /\ prediction (tick env a) = prediction a.
Proof.
  intros Hi Hkey Hlen.
  destruct (processBuffer_Some (bufferRef (sensors a)) Hlen) as [fv Hfv].
  unfold tick. rewrite Hi. unfold getFeatures. rewrite Hfv.
  unfold classifyActivity_call.
  destruct (truthy (AI_API_KEY env)), (truthy (API_KEY env));
    try discriminate Hkey; cbn; by eexists.
Qed.

(** C1, as the code has it. When the backend call made by a tick fails
    (the call is rejected, the text is empty, or the text is not JSON),
    the label shown is the degraded one, activity "Unknown" and
    confidence 0, and the previous-activity context is overwritten with
    that label's activity name, "Unknown". *)
Theorem failed_tick_overwrites_context env a
    (outcome : GenerateContent num) (now : Z) :
  intervalRef a = true ->
  truthy (AI_API_KEY env) || truthy (API_KEY env) = true ->
  40 <= length (bufferRef (sensors a)) ->
  failed outcome = true ->
  let after := settle (fresh (dom (inFlight a))) outcome now (tick env a) in
  prediction after = Some (catchBlock now)
  /\ activity (catchBlock (num:=num) now) = "Unknown"%string
  /\ confidence (catchBlock (num:=num) now) = nzero
  /\ lastPredictionRef after = Some "Unknown"%string.
Proof.
  intros Hi Hkey Hlen Hf after.
  destruct (tick_sends env a Hi Hkey Hlen) as (prompt & Hfl & _).
  assert (Hin : is_Some (inFlight (tick env a) !! fresh (dom (inFlight a)))).
  { rewrite Hfl, lookup_insert_eq. by eexists. }
  destruct (settle_in_flight _ outcome now (tick env a) Hin) as (Hp & Hl & _).
  subst after. rewrite Hp, Hl, failed_settle by done. done.
Qed.

(** C5, as the code has it. [handleStop] disarms the interval, so no
    request is sent after it, and it clears the context; but the answer to
    a request sent before the stop, arriving after it, is applied all the
    same: it becomes the label shown and its activity name becomes the
    previous-activity context. *)
Theorem late_response_is_applied env a id
    (outcome : GenerateContent num) (now : Z) :
  is_Some (inFlight a !! id) ->
  let stopped := handleStop a in
  let late := settle id outcome now stopped in
  tick env stopped = stopped
  /\ lastPredictionRef stopped = None
  /\ prediction stopped = prediction a
  /\ prediction late = Some (classifyActivity_settle outcome now)
  /\ lastPredictionRef late
     = Some (activity (classifyActivity_settle outcome now)).
Proof.
  intros Hin stopped late.
  assert (Hin' : is_Some (inFlight stopped !! id)) by exact Hin.
  destruct (settle_in_flight id outcome now stopped Hin') as (Hp & Hl & _).
  done.
Qed.

(** C6, as the code has it. While the interval is armed and an API key
    is configured, every tick that finds at least 40 buffered samples
    sends a request, whether or not earlier requests are still in flight:
    the tick is neither dropped nor queued, and the number of requests in
    flight grows by one. *)
Theorem every_due_tick_sends env a :
  intervalRef a = true ->
  truthy (AI_API_KEY env) || truthy (API_KEY env) = true ->
  40 <= length (bufferRef (sensors a)) ->
  size (inFlight (tick env a)) = S (size (inFlight a))
  /\ length (sent (tick env a)) = S (length (sent a)).
Proof.
  intros Hi Hkey Hlen.
  destruct (tick_sends env a Hi Hkey Hlen) as (prompt & -> & -> & _).
  split.
  - by rewrite map_size_insert_None by apply fresh_not_in_flight.
  - rewrite length_app. cbn. lia.
Qed.
End LoopFacts.

(** ** The first request of a session *)

Section FirstRequestFacts.
Context {num : Type} `{Number num}.
Implicit Types (a : App num) (env : Env) (e : Event num).

Lemma call_without_context env (features : ProcessedFeatures num) prompt :
  classifyActivity_call env features (orUndefined None) = Returns prompt ->
  prompt_previousActivity prompt = NO_PREVIOUS_ACTIVITY.
Proof.
  unfold classifyActivity_call. destruct (_ && _); [done|].
  intros [= <-]. reflexivity.
Qed.

Lemma sent_step env a e : exists more, sent (step env a e) = sent a ++ more.
Proof.
  destruct e as [granted| | |event now| |id outcome now]; cbn [step];
    try (exists []; by rewrite app_nil_r).
  - destruct (tick_cases env a) as [->|(f & p & _ & _ & _ & _ & Hs & _)].
    + exists []. by rewrite app_nil_r.
    + by exists [p].
  - unfold settle. destruct (inFlight a !! id);
      exists []; by rewrite app_nil_r.
Qed.

Lemma sent_run env events : forall a,
  exists more, sent (run env a events) = sent a ++ more.
Proof.
  induction events as [|e events IH]; intros a.
  - exists []. by rewrite app_nil_r.
  - rewrite run_cons. destruct (IH (step env a e)) as [more2 ->].
    destruct (sent_step env a e) as [more1 ->].
    exists (more1 ++ more2). by rewrite app_assoc.
Qed.

(** As long as nothing has been sent, the context stays empty and the
    calls in flight are those of earlier sessions; the first prompt sent
    therefore carries no previous activity. *)
Lemma first_sent_without_context env (calls : gset nat) sent0 events :
  forall a,
    sent a = sent0 ->
    lastPredictionRef a = None ->
    dom (inFlight a) ⊆ calls ->
    Forall (fun e => settles calls e = false) events ->
    sent (run env a events) = sent0
    \/ exists prompt rest,
         sent (run env a events) = sent0 ++ prompt :: rest
         /\ prompt_previousActivity prompt = NO_PREVIOUS_ACTIVITY.
Proof.
  induction events as [|e events IH]; intros a Hsent Hlast Hdom Hev;
    [by left|].
  apply Forall_cons in Hev as [He Hev]. rewrite run_cons.
  destruct e as [granted| | |event now| |id outcome now]; cbn [step].
  - apply IH; try done.
  - apply IH; try done.
  - apply IH; try done.
  - apply IH; try done.
  - destruct (tick_cases env a)
      as [->|(f & p & _ & _ & Hcall & Hfl & Hs & Hl & _)]; [by apply IH|].
    right. rewrite Hlast in Hcall. apply call_without_context in Hcall.
    destruct (sent_run env events (tick env a)) as [more ->].
    exists p, more. rewrite Hs, Hsent, <- app_assoc. done.
  - cbn in He. apply bool_decide_eq_false in He.
    rewrite settle_not_in_flight; [by apply IH|].
    apply not_elem_of_dom. set_solver.
Qed.

(** C10, as the code has it. [handleStart] clears the label shown and
    the previous-activity context, whatever earlier sessions left there;
    and if no answer to a request of an earlier session arrives
    afterwards, the first request sent after the start carries the marker
    "None / Initializing" in place of a previous activity. *)
Theorem first_request_of_session env a (granted : bool)
    (events : list (Event num)) (prompt : Prompt num) :
  prediction (handleStart granted a) = None
  /\ lastPredictionRef (handleStart granted a) = None
  /\ (noLateResponse a events ->
      head (sentDuring env (handleStart granted a) events) = Some prompt ->
      prompt_previousActivity prompt = NO_PREVIOUS_ACTIVITY).
Proof.
  split; [done|]. split; [done|]. intros Hlate Hhead.
  unfold sentDuring in Hhead.
  destruct (first_sent_without_context env (dom (inFlight a))
              (sent (handleStart granted a)) events (handleStart granted a))
    as [Hnone|(p & rest & Hsome & Hp)]; try done.
  - rewrite Hnone, drop_all in Hhead. discriminate Hhead.
  - rewrite Hsome, drop_app_length in Hhead. by injection Hhead as <-.
Qed.
End FirstRequestFacts.

(** ** Concrete runs of the loop and of the buffer *)

(** C1 fails as stated: the context is "Walking" before the tick, the
    backend call of the tick is rejected, and afterwards the label shown is
    the degraded one and the context is "Unknown". *)
Lemma failed_tick_loses_context :
  let after := settle 0 Rejected 4100 (tick withKey afterFirstAnswer) in
  lastPredictionRef afterFirstAnswer = Some "Walking"%string
  /\ prediction after = Some (catchBlock 4100)
  /\ lastPredictionRef after = Some "Unknown"%string
  /\ lastPredictionRef after <> lastPredictionRef afterFirstAnswer.
Proof. vm_compute. repeat split. intros [=]. Qed.

Lemma failed_tick_overwrites_context_witness :
  intervalRef afterFirstAnswer = true
  /\ 40 <= length (bufferRef (sensors afterFirstAnswer))
  /\ failed (num:=float) (Fulfilled TextFalsy) = true
  /\ fresh (dom (inFlight afterFirstAnswer)) = 0
  /\ prediction (settle 0 (Fulfilled TextFalsy) 4100 (tick withKey afterFirstAnswer))
     = Some (catchBlock 4100)
  /\ lastPredictionRef
       (settle 0 (Fulfilled TextFalsy) 4100 (tick withKey afterFirstAnswer))
     = Some "Unknown"%string.
Proof.
  assert (H0 : intervalRef afterFirstAnswer = true) by reflexivity.
  assert (H1 : 40 <= length (bufferRef (sensors afterFirstAnswer)))
    by (vm_compute; lia).
  assert (H2 : failed (num:=float) (Fulfilled TextFalsy) = true) by reflexivity.
  assert (H3 : fresh (dom (inFlight afterFirstAnswer)) = 0)
    by (vm_compute; reflexivity).
  pose proof (failed_tick_overwrites_context withKey afterFirstAnswer
                (Fulfilled TextFalsy) 4100 H0 eq_refl H1 H2) as (Hp & _ & _ & Hl).
  rewrite H3 in Hp, Hl.
  repeat split; assumption.
Defined.

(** C5 fails as stated: the session is stopped while its request is in
    flight; the answer arrives afterwards and both the label shown and the
    context change. *)
Lemma late_response_changes_stopped_session :
  let late := settle 0 (Fulfilled (TextJSON walking)) 9000 stoppedWhileWaiting in
  is_Some (inFlight awaitingFirstAnswer !! 0)
  /\ prediction stoppedWhileWaiting = None
  /\ lastPredictionRef stoppedWhileWaiting = None
  /\ option_map activity (prediction late) = Some "Walking"%string
  /\ lastPredictionRef late = Some "Walking"%string.
Proof. vm_compute. repeat split. eexists; reflexivity. Qed.

Lemma late_response_is_applied_witness :
  is_Some (inFlight awaitingFirstAnswer !! 0)
  /\ tick withKey (handleStop awaitingFirstAnswer) = handleStop awaitingFirstAnswer
  /\ lastPredictionRef (settle 0 Rejected 9000 (handleStop awaitingFirstAnswer))
     = Some (activity (classifyActivity_settle (num:=float) Rejected 9000)).
Proof.
  assert (H0 : is_Some (inFlight awaitingFirstAnswer !! 0))
    by (vm_compute; eexists; reflexivity).
  destruct (late_response_is_applied withKey awaitingFirstAnswer 0
              Rejected 9000 H0) as (Ht & _ & _ & _ & Hl).
  repeat split; assumption.
Defined.

(** C6 fails as stated: two ticks fire before the backend answers the
    first; the second is not dropped, and two requests are in flight. *)
Lemma two_requests_in_flight :
  size (inFlight (run withKey initial twoTicks)) = 2
  /\ length (sent (run withKey initial twoTicks)) = 2
  /\ ~ (forall events : list (Event float),
          size (inFlight (run withKey initial events)) <= 1).
Proof.
  assert (H2 : size (inFlight (run withKey initial twoTicks)) = 2)
    by (vm_compute; reflexivity).
  split; [exact H2|]. split; [vm_compute; reflexivity|].
  intros Hall. specialize (Hall twoTicks). rewrite H2 in Hall. lia.
Qed.

Lemma every_due_tick_sends_witness :
  intervalRef awaitingFirstAnswer = true
  /\ 40 <= length (bufferRef (sensors awaitingFirstAnswer))
  /\ size (inFlight awaitingFirstAnswer) = 1
  /\ size (inFlight (tick withKey awaitingFirstAnswer)) = 2.
Proof.
  assert (H0 : intervalRef awaitingFirstAnswer = true) by reflexivity.
  assert (H1 : 40 <= length (bufferRef (sensors awaitingFirstAnswer)))
    by (vm_compute; lia).
  assert (H2 : size (inFlight awaitingFirstAnswer) = 1) by (vm_compute; reflexivity).
  destruct (every_due_tick_sends withKey awaitingFirstAnswer H0 eq_refl H1)
    as [Hs _].
  rewrite H2 in Hs. repeat split; assumption.
Defined.

(** C10 fails as stated: the answer to a request of the stopped session
    arrives after the new session has started, and the first request of the
    new session carries "Walking" as its previous activity. *)
Lemma first_request_carries_stale_activity :
  exists prompt,
    head (sentDuring withKey (handleStart true stoppedWhileWaiting)
                     lateAnswerThenTick) = Some prompt
    /\ prompt_previousActivity prompt = "Walking"%string
    /\ prompt_previousActivity prompt <> NO_PREVIOUS_ACTIVITY.
Proof.
  eexists. split; [vm_compute; reflexivity|]. split; [reflexivity|].
  intros [=].
Qed.

Lemma first_request_of_session_witness :
  noLateResponse stoppedWhileWaiting fillThenTick
  /\ exists prompt,
       head (sentDuring withKey (handleStart true stoppedWhileWaiting)
                        fillThenTick) = Some prompt
       /\ prompt_previousActivity prompt = NO_PREVIOUS_ACTIVITY.
Proof.
  assert (H0 : noLateResponse stoppedWhileWaiting fillThenTick).
  { unfold noLateResponse, fillThenTick. apply Forall_app. split.
    - apply Forall_forall. intros e He. unfold motions in He.
      apply list_elem_of_fmap in He as [arrival [-> _]].
      reflexivity.
    - repeat constructor. }
  split; [exact H0|].
  eexists. split; [vm_compute; reflexivity|].
  eapply (first_request_of_session withKey stoppedWhileWaiting true fillThenTick);
    [exact H0|vm_compute; reflexivity].
Defined.

Lemma buffer_is_sliding_window_witness :
  isRecording (startRecording (num:=float) initialSensors) = true
  /\ bufferRef (startRecording (num:=float) initialSensors) = []
  /\ length (bufferRef (feed (steady 1%float 0 103) (startRecording initialSensors)))
     = 100
  /\ bufferRef (feed (steady 1%float 0 103) (startRecording initialSensors))
     = samplesOf (steady 1%float 150 100).
Proof.
  destruct (buffer_is_sliding_window (startRecording initialSensors)
              (steady 1%float 0 103) eq_refl eq_refl) as (Hlen & Hbuf & _).
  split; [reflexivity|]. split; [reflexivity|].
  split; [rewrite Hlen|rewrite Hbuf]; vm_compute; reflexivity.
Defined.

Lemma extraction_threshold_witness :
  processBuffer (samplesOf (steady 1%float 0 39)) = None
  /\ (exists fv, processBuffer (samplesOf (steady 1%float 0 40)) = Some fv)
  /\ getFeatures (feed (steady 1%float 0 39) (startRecording initialSensors)) = None
  /\ exists fv,
       getFeatures (feed (steady 1%float 0 39 ++ [(reading 2%float, 1950%Z)])
                         (startRecording initialSensors)) = Some fv.
Proof.
  destruct (extraction_threshold
              (samplesOf (steady 1%float 0 39)) (startRecording initialSensors)
              (steady 1%float 0 39) (reading 2%float, 1950%Z)) as (Hlt & _ & Hrun).
  destruct (extraction_threshold
              (samplesOf (steady 1%float 0 40)) (startRecording initialSensors)
              (steady 1%float 0 39) (reading 2%float, 1950%Z)) as (_ & Hge & _).
  split; [apply Hlt; vm_compute; lia|].
  split; [apply Hge; vm_compute; lia|].
  apply Hrun; reflexivity.
Defined.

Lemma stop_resets_session_witness :
  lastPredictionRef afterFirstAnswer = Some "Walking"%string
  /\ length (bufferRef (sensors afterFirstAnswer)) = 80
  /\ length (bufferRef (sensors (handleStop afterFirstAnswer))) = 0
  /\ lastPredictionRef (handleStop afterFirstAnswer) = None
  /\ getFeatures (sensors (run withKey (handleStart true (handleStop afterFirstAnswer))
                               (motions (steady 1%float 9000 39)))) = None
  /\ exists fv,
       getFeatures (sensors (run withKey (handleStart true (handleStop afterFirstAnswer))
                                 (motions (steady 1%float 9000 40)))) = Some fv.
Proof.
  destruct (stop_resets_session withKey afterFirstAnswer true (steady 1%float 9000 39))
    as (_ & Hlen & Hctx & _ & Hlt & _).
  destruct (stop_resets_session withKey afterFirstAnswer true (steady 1%float 9000 40))
    as (_ & _ & _ & _ & _ & Hge).
  split; [vm_compute; reflexivity|]. split; [vm_compute; reflexivity|].
  split; [exact Hlen|]. split; [exact Hctx|].
  split; [apply Hlt; vm_compute; lia|apply Hge; vm_compute; lia].
Defined.

(** ** Mean and standard deviation in exact arithmetic *)

Section ExactFacts.
Local Open Scope R_scope.

Lemma fold_left_Rplus (values : list R) : forall acc,
  fold_left Rplus values acc = acc + total values.
Proof.
  induction values as [|v values IH]; intros acc; cbn.
  - lra.
  - rewrite IH. lra.
Qed.


Lemma squaredDeviations_exact (values : list R) (m : R) :
  squaredDeviations values m
  = total (map (fun v => (v - m) * (v - m)) values).
Proof.
  unfold squaredDeviations. cbn. rewrite fold_left_Rplus, Rplus_0_l.
  f_equal. apply map_ext. intros v. lra.
Qed.


Lemma total_nonneg (values : list R) :
  Forall (fun v => 0 <= v) values -> 0 <= total values.
Proof.
  induction 1 as [|v values Hv _ IH]; cbn; lra.
Qed.

Lemma squaredDeviations_nonneg (values : list R) (m : R) :
  0 <= squaredDeviations values m.
Proof.
  rewrite squaredDeviations_exact. apply total_nonneg.
  apply Forall_forall. intros sq Hsq.
  apply list_elem_of_fmap in Hsq as [v [-> _]]. cbn beta.
  pose proof (Rle_0_sqr (v - m)) as Hsqr. unfold Rsqr in Hsqr. exact Hsqr.
Qed.






End ExactFacts.




(** ** Rounding to binary64 *)

Section Rounding.
Local Open Scope Z_scope.

Lemma signed_notNaN sx f : signed sx f -> notNaN f.
Proof. destruct f; cbn; intros Hs; try done. Qed.

Lemma fexp_eq x : fexp prec emax x = Z.max (x - 53) (-1074).
Proof. reflexivity. Qed.

Lemma shr_1_nonneg mrs : 0 <= shr_m mrs -> 0 <= shr_m (shr_1 mrs).
Proof.
  destruct mrs as [m r s]. destruct m as [|[p|p|]|[p|p|]]; cbn; lia.
Qed.

Lemma iter_pos_shr_1_nonneg p : forall mrs,
  0 <= shr_m mrs -> 0 <= shr_m (SpecFloat.iter_pos shr_1 p mrs).
Proof.
  induction p as [p IH|p IH|]; intros mrs Hm; cbn.
  - apply IH, IH, shr_1_nonneg, Hm.
  - apply IH, IH, Hm.
  - apply shr_1_nonneg, Hm.
Qed.

Lemma shr_fexp_nonneg m e l :
  0 <= m -> 0 <= shr_m (shr_fexp prec emax m e l).1.
Proof.
  intros Hm. unfold shr_fexp, shr.
  assert (Hr : 0 <= shr_m (shr_record_of_loc m l)) by (by destruct l as [|[]]).
  destruct (fexp prec emax (Zdigits2 m + e) - e); cbn; try done.
  by apply iter_pos_shr_1_nonneg.
Qed.

Lemma round_nearest_even_nonneg m l : 0 <= m -> 0 <= round_nearest_even m l.
Proof.
  intros Hm. destruct l as [|[]]; cbn; try lia. destruct (Z.even m); lia.
Qed.

(** Rounding a non-negative mantissa never gives NaN, and keeps the sign. *)
Lemma binary_round_aux_signed sx mx ex lx :
  0 <= mx -> signed sx (binary_round_aux prec emax sx mx ex lx).
Proof.
  intros Hm. unfold binary_round_aux.
  pose proof (shr_fexp_nonneg mx ex lx Hm) as H1.
  destruct (shr_fexp prec emax mx ex lx) as [mrs1 e1]. cbn in H1.
  pose proof (shr_fexp_nonneg _ e1 loc_Exact
                (round_nearest_even_nonneg _ (loc_of_shr_record mrs1) H1)) as H2.
  destruct (shr_fexp prec emax _ e1 loc_Exact) as [mrs2 e2]. cbn in H2.
  destruct (shr_m mrs2) as [|m|m]; cbn; [done| |lia].
  by destruct (e2 <=? emax - prec).
Qed.

Lemma binary_round_signed sx mx ex : signed sx (binary_round prec emax sx mx ex).
Proof.
  unfold binary_round. destruct (shl_align _ _ _) as [mz ez].
  by apply binary_round_aux_signed.
Qed.

Lemma binary_normalize_notNaN m e : notNaN (binary_normalize prec emax m e false).
Proof.
  destruct m; cbn; [done| |]; eapply signed_notNaN, binary_round_signed.
Qed.

Lemma binary_normalize_nonneg m e :
  0 <= m -> signed false (binary_normalize prec emax m e false).
Proof.
  intros Hm. destruct m; cbn; [done|apply binary_round_signed|lia].
Qed.

(** A mantissa that already fits is left alone. *)
Lemma binary_round_aux_canonical s m e :
  fexp prec emax (Z.pos (digits2_pos m) + e) = e ->
  e <= 971 ->
  binary_round_aux prec emax s (Z.pos m) e loc_Exact = S754_finite s m e.
Proof.
  intros Hc He. unfold binary_round_aux, shr_fexp. cbn [Zdigits2].
  rewrite Hc, Z.sub_diag. cbn [shr shr_record_of_loc shr_m loc_of_shr_record
    round_nearest_even Zdigits2].
  rewrite Hc, Z.sub_diag. cbn [shr shr_record_of_loc shr_m].
  replace (e <=? emax - prec) with true; [done|].
  symmetry. apply Z.leb_le. unfold emax, prec. lia.
Qed.
End Rounding.

Section Operations.
Local Open Scope Z_scope.

Lemma SFadd_notNaN x y : notNaN x -> isFinite y -> notNaN (SF64add x y).
Proof.
  destruct x as [sx|sx| |sx mx ex], y as [sy|sy| |sy my ey]; cbn; try done.
  - by destruct sx, sy.
  - intros _ _. apply binary_normalize_notNaN.
Qed.

Lemma SFadd_nonneg x y :
  signed false x -> signed false y -> signed false (SF64add x y).
Proof.
  destruct x as [sx|sx| |sx mx ex], y as [sy|sy| |sy my ey]; cbn;
    try done; intros -> ->; try done.
  apply binary_normalize_nonneg. cbn. lia.
Qed.

Lemma SFsub_notNaN x y : isFinite x -> notNaN y -> notNaN (SF64sub x y).
Proof.
  destruct x as [sx|sx| |sx mx ex], y as [sy|sy| |sy my ey]; cbn; try done.
  - by destruct sx, sy.
  - intros _ _. apply binary_normalize_notNaN.
Qed.

Lemma SFmul_self_nonneg x : notNaN x -> signed false (SF64mul x x).
Proof.
  destruct x as [sx|sx| |sx mx ex]; cbn; try done; intros _;
    try by destruct sx.
  replace (xorb sx sx) with false by (by destruct sx).
  by apply binary_round_aux_signed.
Qed.

Lemma SFdiv_core_nonneg m1 e1 m2 e2 :
  0 <= m1 -> 0 < m2 ->
  0 <= (SFdiv_core_binary prec emax m1 e1 m2 e2).1.1.
Proof.
  intros H1 H2. unfold SFdiv_core_binary.
  set (s := e1 - e2 - _).
  set (m' := match s with Z.pos _ => Z.shiftl m1 s | 0 => m1 | Z.neg _ => 0 end).
  assert (Hm' : 0 <= m').
  { subst m'. destruct s; [done| |done]. by apply Z.shiftl_nonneg. }
  pose proof (Z.div_pos m' m2 Hm' H2) as Hq. unfold Z.div in Hq.
  by destruct (Z.div_eucl m' m2) as [q r].
Qed.

Lemma SFdiv_signed x sy my ey :
  notNaN x ->
  notNaN (SF64div x (S754_finite sy my ey))
  /\ (signed false x -> sy = false ->
      signed false (SF64div x (S754_finite sy my ey))).
Proof.
  destruct x as [sx|sx| |sx mx ex]; cbn; intros Hx; try done.
  - split; [done|]. by intros -> ->.
  - split; [done|]. by intros -> ->.
  - pose proof (SFdiv_core_nonneg (Z.pos mx) ex (Z.pos my) ey) as Hq.
    destruct (SFdiv_core_binary prec emax (Z.pos mx) ex (Z.pos my) ey)
      as [[mz ez] lz]. cbn in Hq.
    split.
    + eapply signed_notNaN, binary_round_aux_signed. by apply Hq.
    + intros -> ->. apply binary_round_aux_signed. by apply Hq.
Qed.

Lemma SFsqrt_core_nonneg m e :
  0 <= m -> 0 <= (SFsqrt_core_binary prec emax m e).1.1.
Proof.
  intros Hm. unfold SFsqrt_core_binary.
  set (s := e - _).
  set (m' := match s with Z.pos _ => Z.shiftl m s | 0 => m | Z.neg _ => 0 end).
  pose proof (Z.sqrtrem_sqrt m') as Hs. pose proof (Z.sqrt_nonneg m') as Hn.
  destruct (Z.sqrtrem m') as [q r]. cbn in Hs. cbn. lia.
Qed.

Lemma SFsqrt_nonneg x : signed false x -> signed false (SF64sqrt x).
Proof.
  destruct x as [sx|sx| |sx mx ex]; cbn; try done; intros ->; try done.
  pose proof (SFsqrt_core_nonneg (Z.pos mx) ex) as Hq.
  destruct (SFsqrt_core_binary prec emax (Z.pos mx) ex) as [[mz ez] lz].
  apply binary_round_aux_signed. by apply Hq.
Qed.
End Operations.

Section Primitive.
Local Open Scope Z_scope.

Lemma SFeqb_refl f :
  SFeqb f f = match f with S754_nan => false | _ => true end.
Proof.
  destruct f as [s|s| |s m e]; unfold SFeqb; cbn; try done.
  - by destruct s.
  - rewrite Z.compare_refl, Pos.compare_cont_refl. by destruct s.
Qed.

Lemma is_nan_false x : PrimFloat.is_nan x = false <-> notNaN (Prim2SF x).
Proof.
  unfold PrimFloat.is_nan. rewrite FloatAxioms.eqb_spec, SFeqb_refl. unfold notNaN.
  destruct (Prim2SF x); cbn; split; done.
Qed.

Lemma is_finite_true x : PrimFloat.is_finite x = true -> isFinite (Prim2SF x).
Proof.
  unfold PrimFloat.is_finite, PrimFloat.is_nan, PrimFloat.is_infinity.
  rewrite !FloatAxioms.eqb_spec, abs_spec, SFeqb_refl.
  change (Prim2SF infinity) with (S754_infinity false).
  by destruct (Prim2SF x).
Qed.

Lemma digits2_pos_lower p : 2 ^ (Z.pos (digits2_pos p) - 1) <= Z.pos p.
Proof.
  induction p as [p IH|p IH|]; cbn [digits2_pos]; [| |done].
  - rewrite Pos2Z.inj_succ.
    replace (Z.succ (Z.pos (digits2_pos p)) - 1)
      with (Z.succ (Z.pos (digits2_pos p) - 1)) by lia.
    rewrite Z.pow_succ_r by lia. lia.
  - rewrite Pos2Z.inj_succ.
    replace (Z.succ (Z.pos (digits2_pos p)) - 1)
      with (Z.succ (Z.pos (digits2_pos p) - 1)) by lia.
    rewrite Z.pow_succ_r by lia. lia.
Qed.

Lemma digits2_pos_iter_xO p k :
  Z.pos (digits2_pos (Pos.iter xO p k)) = Z.pos (digits2_pos p) + Z.pos k.
Proof.
  induction k as [|k IH] using Pos.peano_ind.
  - cbn. lia.
  - rewrite Pos.iter_succ. cbn [digits2_pos]. lia.
Qed.

(** Rounding a mantissa that needs no right shift only aligns it. *)
Lemma binary_round_exact s p e :
  fexp prec emax (Z.pos (digits2_pos p) + e) <= e ->
  fexp prec emax (Z.pos (digits2_pos p) + e) <= 971 ->
  exists m, binary_round prec emax s p e
            = S754_finite s m (fexp prec emax (Z.pos (digits2_pos p) + e)).
Proof.
  intros Hle Hmax. unfold binary_round, shl_align.
  set (e' := fexp prec emax (Z.pos (digits2_pos p) + e)) in *.
  destruct (e' - e) as [|k|k] eqn:Hk; [|lia|].
  - exists p. assert (e' = e) as Heq by lia.
    rewrite Heq. apply binary_round_aux_canonical; [exact Heq|lia].
  - exists (Pos.iter xO p k). apply binary_round_aux_canonical; [|lia].
    rewrite digits2_pos_iter_xO.
    replace (Z.pos (digits2_pos p) + Z.pos k + e') with (Z.pos (digits2_pos p) + e) by lia.
    reflexivity.
Qed.

Lemma of_nat_finite (n : nat) :
  (1 <= n)%nat -> Z.of_nat n < 2 ^ 53 ->
  exists m e,
    Prim2SF (PrimFloat.of_uint63 (Uint63.of_Z (Z.of_nat n))) = S754_finite false m e.
Proof.
  intros H1 H53. rewrite of_uint63_spec, Uint63.of_Z_spec.
  rewrite Z.mod_small by (change Uint63Axioms.wB with (2 ^ 63); lia).
  destruct (Z.of_nat n) as [|p|p] eqn:Hp; [lia| |lia]. cbn [binary_normalize].
  pose proof (digits2_pos_lower p) as Hd.
  assert (Z.pos (digits2_pos p) <= 53) as Hd53.
  { destruct (Z.le_gt_cases (Z.pos (digits2_pos p)) 53) as [|Hgt]; [done|].
    assert (2 ^ 53 <= 2 ^ (Z.pos (digits2_pos p) - 1))
      by (apply Z.pow_le_mono_r; lia). lia. }
  destruct (binary_round_exact false p 0) as [m Hm].
  - rewrite fexp_eq. lia.
  - rewrite fexp_eq. lia.
  - eauto.
Qed.
End Primitive.

Section DivisionByOne.
Local Open Scope Z_scope.

Lemma binary_round_aux_double s m e :
  fexp prec emax (Z.pos (digits2_pos m) + e) = e ->
  e <= 971 ->
  binary_round_aux prec emax s (Z.pos m~0) (e - 1) loc_Exact = S754_finite s m e.
Proof.
  intros Hc He. unfold binary_round_aux, shr_fexp. cbn [Zdigits2 digits2_pos].
  replace (Z.pos (Pos.succ (digits2_pos m)) + (e - 1))
    with (Z.pos (digits2_pos m) + e) by lia.
  rewrite Hc. replace (e - (e - 1)) with 1 by lia.
  cbn [shr SpecFloat.iter_pos shr_1 shr_record_of_loc shr_m loc_of_shr_record
       round_nearest_even Zdigits2].
  replace (e - 1 + 1) with e by lia.
  cbn [orb round_nearest_even Zdigits2].
  rewrite Hc, Z.sub_diag. cbn [shr shr_m].
  replace (e <=? emax - prec) with true; [done|].
  symmetry. apply Z.leb_le. unfold emax, prec. lia.
Qed.

Lemma div_eucl_exact q b : 0 < b -> Z.div_eucl (q * b) b = (q, 0).
Proof.
  intros Hb.
  pose proof (Z.div_mul q b ltac:(lia)) as Hq.
  pose proof (Z.mod_mul q b ltac:(lia)) as Hr.
  unfold Z.div, Z.modulo in Hq, Hr.
  destruct (Z.div_eucl (q * b) b) as [q' r']. by subst.
Qed.

(** Dividing a binary64 number by 1 gives it back. *)
Lemma SFdiv_one s m e :
  SpecFloat.bounded prec emax m e = true ->
  SF64div (S754_finite s m e) (S754_finite false 4503599627370496 (-52))
  = S754_finite s m e.
Proof.
  unfold SpecFloat.bounded, canonical_mantissa. intros Hb.
  apply andb_true_iff in Hb as [Hc He].
  apply Z.eqb_eq in Hc. apply Z.leb_le in He. change (emax - prec) with 971 in He.
  unfold SF64div, SFdiv, SFdiv_core_binary. cbn [Zdigits2].
  change (digits2_pos 4503599627370496) with 53%positive.
  rewrite xorb_false_r.
  pose proof Hc as Hc'. rewrite fexp_eq in Hc'.
  set (d := Z.pos (digits2_pos m)) in *.
  assert (0 < d) as Hd by (subst d; lia).
  rewrite fexp_eq.
  destruct (Z.eq_dec e (-1074)) as [Hsub|Hnorm].
  - (* the smallest exponent: the quotient keeps it *)
    replace (Z.min (Z.max (d + e - (53 + -52) - 53) (-1074)) (e - -52)) with e by lia.
    replace (e - -52 - e) with 52 by lia.
    rewrite Z.shiftl_mul_pow2 by lia.
    change (2 ^ 52) with 4503599627370496.
    rewrite (div_eucl_exact (Z.pos m) 4503599627370496) by lia.
    change (new_location 4503599627370496 0) with loc_Exact.
    by apply binary_round_aux_canonical.
  - replace (Z.min (Z.max (d + e - (53 + -52) - 53) (-1074)) (e - -52))
      with (e - 1) by lia.
    replace (e - -52 - (e - 1)) with 53 by lia.
    rewrite Z.shiftl_mul_pow2 by lia.
    replace (Z.pos m * 2 ^ 53) with (Z.pos m~0 * 4503599627370496) by lia.
    rewrite (div_eucl_exact (Z.pos m~0) 4503599627370496) by lia.
    change (new_location 4503599627370496 0) with loc_Exact.
    by apply binary_round_aux_double.
Qed.
End DivisionByOne.

(** ** Mean and standard deviation in binary64 *)

Section Float64Facts.
Implicit Types (arr : list float) (v acc : float).

Lemma sum_notNaN arr : forall acc,
  Forall (fun v => PrimFloat.is_finite v = true) arr ->
  notNaN (Prim2SF acc) ->
  notNaN (Prim2SF (fold_left PrimFloat.add arr acc)).
Proof.
  induction arr as [|v arr IH]; intros acc Hfin Hacc; [done|].
  apply Forall_cons in Hfin as [Hv Hfin]. cbn [fold_left].
  apply IH; [done|]. rewrite add_spec.
  apply SFadd_notNaN; [done|]. by apply is_finite_true.
Qed.

Lemma sum_nonneg arr : forall acc,
  Forall (fun v => signed false (Prim2SF v)) arr ->
  signed false (Prim2SF acc) ->
  signed false (Prim2SF (fold_left PrimFloat.add arr acc)).
Proof.
  induction arr as [|v arr IH]; intros acc Hpos Hacc; [done|].
  apply Forall_cons in Hpos as [Hv Hpos]. cbn [fold_left].
  apply IH; [done|]. rewrite add_spec. by apply SFadd_nonneg.
Qed.

Lemma mean_notNaN arr :
  (1 <= length arr)%nat ->
  (Z.of_nat (length arr) < 2 ^ 53)%Z ->
  Forall (fun v => PrimFloat.is_finite v = true) arr ->
  notNaN (Prim2SF (mean arr)).
Proof.
  intros H1 H53 Hfin. unfold mean. cbn [ndiv nadd nzero nlength float64].
  rewrite div_spec.
  destruct (of_nat_finite (length arr) H1 H53) as (m & e & ->).
  apply SFdiv_signed. by apply sum_notNaN.
Qed.

Lemma squares_nonneg arr meanVal :
  Forall (fun v => PrimFloat.is_finite v = true) arr ->
  notNaN (Prim2SF meanVal) ->
  Forall (fun v => signed false (Prim2SF v))
         (map (fun x => npow2 (nsub x meanVal)) arr).
Proof.
  intros Hfin Hm. apply Forall_fmap. eapply Forall_impl; [exact Hfin|].
  intros v Hv. cbn. rewrite mul_spec. apply SFmul_self_nonneg.
  rewrite sub_spec. apply SFsub_notNaN; [|done]. by apply is_finite_true.
Qed.

Lemma std_nonneg arr meanVal :
  (1 <= length arr)%nat ->
  (Z.of_nat (length arr) < 2 ^ 53)%Z ->
  Forall (fun v => PrimFloat.is_finite v = true) arr ->
  notNaN (Prim2SF meanVal) ->
  signed false (Prim2SF (std arr meanVal)).
Proof.
  intros H1 H53 Hfin Hm. unfold std. cbn [ndiv nadd nzero nlength nsqrt float64].
  rewrite sqrt_spec. apply SFsqrt_nonneg. rewrite div_spec.
  destruct (of_nat_finite (length arr) H1 H53) as (m & e & ->).
  assert (Hsum : signed false (Prim2SF (fold_left PrimFloat.add
                   (map (fun x => npow2 (nsub x meanVal)) arr) 0%float))).
  { apply sum_nonneg; [by apply squares_nonneg|done]. }
  by apply SFdiv_signed; [eapply signed_notNaN|..].
Qed.

Lemma std_singleton v :
  PrimFloat.is_finite v = true -> std [v] (mean [v]) = 0%float.
Proof.
  intros Hv. apply is_finite_true in Hv. pose proof (Prim2SF_valid v) as Hvalid.
  apply Prim2SF_inj. unfold std, mean.
  cbn [ndiv nadd nsub npow2 nzero nlength nsqrt float64 length map fold_left].
  change (PrimFloat.of_uint63 (Uint63.of_Z (Z.of_nat 1))) with 1%float.
  rewrite sqrt_spec, div_spec, add_spec, mul_spec, sub_spec, div_spec, add_spec.
  change (Prim2SF 1) with (S754_finite false 4503599627370496 (-52)).
  change (Prim2SF 0) with (S754_zero false).
  destruct (Prim2SF v) as [s|s| |s m e]; try done.
  - by destruct s.
  - cbn [SF64add SFadd]. rewrite (SFdiv_one s m e Hvalid).
    cbn [SF64sub SFsub]. rewrite Z.min_id. unfold shl_align.
    rewrite !Z.sub_diag. reflexivity.
Qed.

(** One array of readings: the divisor, the mean and the standard
    deviation. *)
Lemma std_of_array arr :
  (1 <= length arr)%nat ->
  (Z.of_nat (length arr) <= MAX_ARRAY_LENGTH)%Z ->
  allFinite arr ->
  PrimFloat.eqb (nlength (length arr)) 0 = false
  /\ PrimFloat.is_nan (mean arr) = false
  /\ PrimFloat.is_nan (std arr (mean arr)) = false
  /\ (length arr = 1%nat -> std arr (mean arr) = 0%float).
Proof.
  intros H1 Hmax Hfin.
  assert (H53 : (Z.of_nat (length arr) < 2 ^ 53)%Z)
    by (unfold MAX_ARRAY_LENGTH in Hmax; lia).
  pose proof (mean_notNaN arr H1 H53 Hfin) as Hmean.
  split; [|split; [|split]].
  - rewrite FloatAxioms.eqb_spec. cbn [nlength float64].
    destruct (of_nat_finite (length arr) H1 H53) as (m & e & ->). reflexivity.
  - by apply is_nan_false.
  - eapply is_nan_false, signed_notNaN, std_nonneg; done.
  - intros Hone. destruct arr as [|v [|w arr]]; try discriminate Hone.
    apply std_singleton. by apply Forall_cons in Hfin as [Hv _].
Qed.

(** C9. In binary64, for every window of N >= 1 samples (N at most the
    largest array length) and each of the six channels, if the channel's
    values are finite then the divisor [arr.length] of the mean and of the
    standard deviation is not zero, neither the mean nor the standard
    deviation is NaN, and for a window of exactly one sample the standard
    deviation is 0. *)
Theorem std_is_a_number (data : list (SensorData float)) :
  (1 <= length data)%nat ->
  (Z.of_nat (length data) <= MAX_ARRAY_LENGTH)%Z ->
  finiteWindow data ->
  Forall (fun c =>
            PrimFloat.eqb (nlength (length (map c data))) 0 = false
            /\ PrimFloat.is_nan (mean (map c data)) = false
            /\ PrimFloat.is_nan (std (map c data) (mean (map c data))) = false
            /\ (length data = 1%nat ->
                std (map c data) (mean (map c data)) = 0%float))
         channels.
Proof.
  intros H1 Hmax Hfin. eapply Forall_impl; [exact Hfin|].
  intros c Hc. cbn beta in Hc.
  pose proof (std_of_array (map c data)) as Harr.
  rewrite length_map in Harr. rewrite length_map.
  by apply Harr.
Qed.
End Float64Facts.

Lemma std_is_a_number_witness :
  (1 <= length mixedWindow)%nat
  /\ (Z.of_nat (length mixedWindow) <= MAX_ARRAY_LENGTH)%Z
  /\ finiteWindow mixedWindow
  /\ PrimFloat.is_nan (std (map x mixedWindow) (mean (map x mixedWindow))) = false
  /\ std (map x (take 1 mixedWindow)) (mean (map x (take 1 mixedWindow)))
     = 0%float.
Proof.
  assert (H1 : (1 <= length mixedWindow)%nat) by (cbn; lia).
  assert (H2 : (Z.of_nat (length mixedWindow) <= MAX_ARRAY_LENGTH)%Z)
    by (vm_compute; discriminate).
  assert (H3 : finiteWindow mixedWindow) by (repeat constructor).
  assert (H4 : finiteWindow (take 1 mixedWindow)) by (repeat constructor).
  pose proof (std_is_a_number mixedWindow H1 H2 H3) as Hall.
  apply Forall_cons in Hall as [(_ & _ & Hnan & _) _].
  pose proof (std_is_a_number (take 1 mixedWindow)
                ltac:(cbn; lia) ltac:(vm_compute; discriminate) H4) as Hfirst.
  apply Forall_cons in Hfirst as [(_ & _ & _ & Hone) _].
  split; [exact H1|]. split; [exact H2|]. split; [exact H3|].
  split; [exact Hnan|exact (Hone eq_refl)].
Defined.

(** * Further properties of the hook and of the loop *)

(** ** States the page can reach *)

Section Reachable.
Context {num : Type} `{Number num}.
Implicit Types (a : App num) (env : Env) (e : Event num).

(** A property that every callback preserves holds after any run. *)
Lemma run_invariant (P : App num -> Prop) env :
  (forall a e, P a -> P (step env a e)) ->
  forall events a, P a -> P (run env a events).
Proof.
  intros Hstep events. induction events as [|e events IH]; intros a Ha; [done|].
  rewrite run_cons. by apply IH, Hstep.
Qed.

Lemma pushSample_length (buffer : list (SensorData num)) d :
  length buffer <= MAX_BUFFER_SIZE ->
  length (pushSample buffer d) <= MAX_BUFFER_SIZE.
Proof.
  unfold pushSample, MAX_BUFFER_SIZE. intros Hlen.
  destruct (Nat.ltb_spec 100 (length (buffer ++ [d]))) as [Hlt|Hge]; [|done].
  rewrite length_app in Hlt. cbn in Hlt.
  destruct (buffer ++ [d]) eqn:E; [cbn; lia|].
  apply (f_equal length) in E. rewrite length_app in E. cbn in E. cbn. lia.
Qed.

(** A tick leaves everything but the calls in flight and the log as it
    was. *)
Lemma tick_frame env a :
  sensors (tick env a) = sensors a
  /\ appState (tick env a) = appState a
  /\ prediction (tick env a) = prediction a
  /\ lastPredictionRef (tick env a) = lastPredictionRef a
  /\ intervalRef (tick env a) = intervalRef a.
Proof.
  unfold tick. destruct (intervalRef a) eqn:Hi;
    [|repeat split; congruence].
  destruct (getFeatures (sensors a)); [|repeat split; congruence].
  destruct (classifyActivity_call _ _ _); repeat split; cbn; congruence.
Qed.

(** X1. In every state the page reaches from its mount, whatever the
    callbacks and their order, the buffer holds at most 100 samples, and
    it is empty whenever the hook is not recording. *)
Theorem buffer_bounded_in_every_state env (events : list (Event num)) :
  length (bufferRef (sensors (run env initial events))) <= MAX_BUFFER_SIZE
  /\ (isRecording (sensors (run env initial events)) = false ->
      bufferRef (sensors (run env initial events)) = []).
Proof.
  apply (run_invariant
           (fun a => length (bufferRef (sensors a)) <= MAX_BUFFER_SIZE
                     /\ (isRecording (sensors a) = false ->
                         bufferRef (sensors a) = []))).
  - intros a e [Hlen Hoff].
    destruct e as [granted| | |event now| |id outcome now]; cbn [step].
    + unfold handleStart. cbn. split; [|done].
      by destruct (negb _ && negb _).
    + cbn. split; [lia|done].
    + cbn. split; [lia|done].
    + cbn. destruct (isRecording (sensors a)) eqn:Hrec.
      * split; [by apply pushSample_length|done].
      * split; [done|]. intros _. by apply Hoff.
    + destruct (tick_frame env a) as (-> & _). done.
    + unfold settle. by destruct (inFlight a !! id).
  - cbn. split; [lia|done].
Qed.

Lemma reachable_lifecycle env (events : list (Event num)) :
  let a := run env initial events in
  intervalRef a = isRecording (sensors a)
  /\ (appState a = IDLE \/ appState a = RECORDING)
  /\ (isRecording (sensors a) = true -> appState a = RECORDING).
Proof.
  apply (run_invariant
           (fun a => intervalRef a = isRecording (sensors a)
                     /\ (appState a = IDLE \/ appState a = RECORDING)
                     /\ (isRecording (sensors a) = true -> appState a = RECORDING))).
  - intros a e (Hint & Hst & Hrec).
    destruct e as [granted| | |event now| |id outcome now]; cbn [step].
    + cbn. split; [done|]. split; [by right|done].
    + cbn. split; [done|]. split; [by left|done].
    + cbn. split; [done|]. split; [done|done].
    + cbn. done.
    + destruct (tick_frame env a) as (-> & -> & _ & _ & ->). done.
    + unfold settle. by destruct (inFlight a !! id).
  - cbn. split; [done|]. split; [by left|done].
Qed.

End Reachable.

(** ** What the motion handler lets through *)

Section MotionFacts.
Implicit Types (a : App float) (h : Sensors float).

Lemma orZero_not_NaN (v : option float) : PrimFloat.is_nan (orZero v) = false.
Proof.
  destruct v as [n|]; cbn; [|reflexivity].
  destruct (PrimFloat.is_nan n) eqn:Hn; cbn.
  - rewrite orb_true_r. reflexivity.
  - rewrite orb_false_r. by destruct (PrimFloat.eqb n 0).
Qed.

Lemma newData_withoutNaN (event : DeviceMotionEvent) (now : Z) :
  withoutNaN (newData event now).
Proof.
  unfold withoutNaN, channels, newData.
  repeat constructor; cbn; apply orZero_not_NaN.
Qed.

Lemma pushSample_Forall (P : SensorData float -> Prop) buffer d :
  Forall P buffer -> P d -> Forall P (pushSample buffer d).
Proof.
  intros Hb Hd. unfold pushSample.
  assert (Hall : Forall P (buffer ++ [d])) by (apply Forall_app; by repeat constructor).
  destruct (MAX_BUFFER_SIZE <? length (buffer ++ [d]))%nat; [|done].
  destruct (buffer ++ [d]); [done|]. by apply Forall_cons in Hall as [_ Hall].
Qed.

(** X3. In binary64, whatever the motion events carry (a missing group,
    a missing reading, NaN), no channel of the sample on display or of a
    sample in the buffer is ever NaN: the handler replaces every reading
    that is missing, NaN or zero by 0. *)
Theorem buffer_never_holds_NaN env (events : list (Event float)) :
  withoutNaN (currentData (sensors (run env initial events)))
  /\ Forall withoutNaN (bufferRef (sensors (run env initial events))).
Proof.
  apply (run_invariant
           (fun a => withoutNaN (currentData (sensors a))
                     /\ Forall withoutNaN (bufferRef (sensors a)))).
  - intros a e [Hcur Hbuf].
    destruct e as [granted| | |event now| |id outcome now]; cbn [step].
    + cbn. by destruct (negb _ && negb _).
    + cbn. split; [done|constructor].
    + cbn. split; [done|constructor].
    + cbn. split; [apply newData_withoutNaN|].
      destruct (isRecording (sensors a)); [|done].
      apply pushSample_Forall; [done|apply newData_withoutNaN].
    + destruct (tick_frame env a) as (-> & _). done.
    + unfold settle. by destruct (inFlight a !! id).
  - split; [by repeat constructor|constructor].
Qed.
End MotionFacts.

Section WindowFacts.
Context {num : Type} `{Number num}.
Implicit Types (a : App num) (h : Sensors num) (env : Env).

Lemma mostRecent_all {A : Type} (n : nat) (l : list A) :
  length l <= n -> mostRecent n l = l.
Proof. intros Hl. unfold mostRecent. by replace (length l - n) with 0 by lia. Qed.

Lemma mostRecent_app {A : Type} (n : nat) (l k : list A) :
  n <= length k -> mostRecent n (l ++ k) = mostRecent n k.
Proof.
  intros Hk. unfold mostRecent. rewrite length_app, drop_app.
  rewrite drop_ge by lia. cbn. f_equal. lia.
Qed.

(** X4. While recording, once 100 or more samples have arrived the
    buffer is exactly the last 100 of them, whatever it held before (at
    most 100 samples): nothing older than the last 100 arrivals survives. *)
Theorem window_forgets_older_samples h (arrivals : list Arrival) :
  isRecording h = true ->
  length (bufferRef h) <= MAX_BUFFER_SIZE ->
  MAX_BUFFER_SIZE <= length arrivals ->
  bufferRef (feed arrivals h) = mostRecent MAX_BUFFER_SIZE (samplesOf arrivals).
Proof.
  intros Hrec Hlen Hmany.
  rewrite (feed_window arrivals h (bufferRef h)); [|done|by rewrite mostRecent_all].
  apply mostRecent_app. unfold samplesOf. by rewrite length_map.
Qed.

Lemma feed_snoc (arrivals : list Arrival) e h :
  feed (arrivals ++ [e]) h = handleMotion e.1 e.2 (feed arrivals h).
Proof. unfold feed. by rewrite fold_left_app. Qed.

Lemma feed_not_recording (arrivals : list Arrival) : forall h,
  isRecording h = false -> bufferRef (feed arrivals h) = bufferRef h.
Proof.
  induction arrivals as [|e arrivals IH]; intros h Hoff; [done|].
  change (feed (e :: arrivals) h) with (feed arrivals (handleMotion e.1 e.2 h)).
  rewrite IH by done. cbn. by rewrite Hoff.
Qed.

(** X5. The sample on display is always the one made from the latest
    motion event, recording or not; and while the hook is not recording,
    motion events leave the buffer as it is. *)
Theorem display_follows_every_event h (arrivals : list Arrival) (e : Arrival) :
  currentData (feed (arrivals ++ [e]) h) = newData e.1 e.2
  /\ (isRecording h = false ->
      bufferRef (feed (arrivals ++ [e]) h) = bufferRef h).
Proof.
  split; [by rewrite feed_snoc|]. apply feed_not_recording.
Qed.

Lemma run_snoc env a (events : list (Event num)) e :
  run env a (events ++ [e]) = step env (run env a events) e.
Proof. unfold run. by rewrite fold_left_app. Qed.

Lemma run_motions_frame env (arrivals : list Arrival) : forall a,
  intervalRef (run env a (motions arrivals)) = intervalRef a
  /\ appState (run env a (motions arrivals)) = appState a.
Proof.
  induction arrivals as [|e arrivals IH]; intros a; [done|].
  change (motions (e :: arrivals)) with (Motion e.1 e.2 :: motions arrivals).
  rewrite run_cons. by destruct (IH (step env a (Motion e.1 e.2))) as [-> ->].
Qed.

Lemma feed_isSimulating (arrivals : list Arrival) : forall h,
  isSimulating (feed arrivals h) = isSimulating h.
Proof.
  induction arrivals as [|e arrivals IH]; intros h; [done|].
  change (feed (e :: arrivals) h) with (feed arrivals (handleMotion e.1 e.2 h)).
  by rewrite IH.
Qed.

(** X6. Toggling the simulation in the middle of a session ends the
    recording without telling [App]: the buffer is emptied and stays empty
    under further motion events, a tick sends nothing, and yet the lifecycle
    state, the label shown and the previous-activity context are all left as
    they were. *)
Theorem toggle_ends_session env a (arrivals : list Arrival) :
  let toggled := run env (step env a ToggleSimulation) (motions arrivals ++ [Tick]) in
  isSimulating (sensors toggled) = negb (isSimulating (sensors a))
  /\ isRecording (sensors toggled) = false
  /\ bufferRef (sensors toggled) = []
  /\ sent toggled = sent a
  /\ inFlight toggled = inFlight a
  /\ appState toggled = appState a
  /\ prediction toggled = prediction a
  /\ lastPredictionRef toggled = lastPredictionRef a.
Proof.
  intros toggled. subst toggled. rewrite run_snoc.
  set (t := step env a ToggleSimulation).
  destruct (run_motions env arrivals t) as (Hs & Hl & Hp & Hf & Hsent).
  destruct (run_motions_frame env arrivals t) as (Hi & Hst).
  set (m := run env t (motions arrivals)) in *.
  assert (Htick : tick env m = m).
  { unfold tick. by rewrite Hi. }
  cbn [step]. rewrite Htick, Hs, Hl, Hp, Hf, Hsent, Hst.
  assert (Hoff : isRecording (sensors t) = false) by reflexivity.
  rewrite feed_isRecording, (feed_not_recording arrivals _ Hoff), feed_isSimulating.
  done.
Qed.
End WindowFacts.

(** ** Requests and their answers *)

Section AnswerFacts.
Context {num : Type} `{Number num}.
Implicit Types (a : App num) (env : Env) (e : Event num).

Lemma tick_without_key env a :
  truthy (AI_API_KEY env) || truthy (API_KEY env) = false -> tick env a = a.
Proof.
  intros Hkey. unfold tick. destruct (intervalRef a); [|done].
  destruct (getFeatures (sensors a)); [|done].
  unfold classifyActivity_call.
  apply orb_false_iff in Hkey as [-> ->]. done.
Qed.

(** X7. A tick changes nothing but the set of calls in flight and the
    log of prompts: the hook, the lifecycle state, the label shown and the
    context are as before.  And it changes nothing at all when the interval
    is not armed, when the buffer holds fewer than 40 samples, or when no
    API key is configured. *)
Theorem tick_only_sends env a :
  sensors (tick env a) = sensors a
  /\ appState (tick env a) = appState a
  /\ prediction (tick env a) = prediction a
  /\ lastPredictionRef (tick env a) = lastPredictionRef a
  /\ (intervalRef a = false
      \/ length (bufferRef (sensors a)) < 40
      \/ truthy (AI_API_KEY env) || truthy (API_KEY env) = false ->
      tick env a = a).
Proof.
  destruct (tick_frame env a) as (Hs & Hst & Hp & Hl & _).
  repeat split; try done.
  intros [Hoff|[Hshort|Hkey]].
  - unfold tick. by rewrite Hoff.
  - unfold tick, getFeatures. apply processBuffer_None in Hshort.
    rewrite Hshort. by destruct (intervalRef a).
  - by apply tick_without_key.
Qed.

(** X8. With no API key configured, whatever happens to the page from its
    mount on, no request is ever sent, no call is ever in flight, no label
    is ever shown and the context stays empty. *)
Theorem nothing_without_key env (events : list (Event num)) :
  truthy (AI_API_KEY env) || truthy (API_KEY env) = false ->
  sent (run env initial events) = []
  /\ inFlight (run env initial events) = ∅
  /\ prediction (run env initial events) = None
  /\ lastPredictionRef (run env initial events) = None.
Proof.
  intros Hkey.
  apply (run_invariant
           (fun a => sent a = [] /\ inFlight a = ∅
                     /\ prediction a = None /\ lastPredictionRef a = None)).
  - intros a e (Hs & Hf & Hp & Hl).
    destruct e as [granted| | |event now| |id outcome now]; cbn [step];
      try done.
    + by rewrite tick_without_key.
    + unfold settle. by rewrite Hf, lookup_empty.
  - done.
Qed.

(** The prompt of a tick that sends. *)
Lemma tick_prompt env a :
  intervalRef a = true ->
  truthy (AI_API_KEY env) || truthy (API_KEY env) = true ->
  40 <= length (bufferRef (sensors a)) ->
  exists prompt,
    sent (tick env a) = sent a ++ [prompt]
    /\ prompt_previousActivity prompt
       = match lastPredictionRef a with
         | Some name => if String.eqb name ""%string
                        then NO_PREVIOUS_ACTIVITY else name
         | None => NO_PREVIOUS_ACTIVITY
         end
    /\ Some (prompt_features prompt) = getFeatures (sensors a).
Proof.
  intros Hi Hkey Hlen.
  destruct (processBuffer_Some (bufferRef (sensors a)) Hlen) as [fv Hfv].
  unfold tick. rewrite Hi. unfold getFeatures. rewrite Hfv.
  unfold classifyActivity_call.
  replace (negb (truthy (AI_API_KEY env)) && negb (truthy (API_KEY env)))
    with false by (by destruct (truthy (AI_API_KEY env)), (truthy (API_KEY env))).
  eexists. split; [reflexivity|]. split; [|reflexivity].
  cbn. destruct (lastPredictionRef a) as [name|]; [|done].
  unfold orUndefined. cbn [truthy].
  destruct (String.eqb name "") eqn:Hname; cbn; by rewrite ?Hname.
Qed.

(** X9. When the backend call made by a tick succeeds, the label shown is
    the response with the time of its arrival as timestamp, the
    previous-activity context becomes the response's activity name, and the
    next tick sends that name as previous activity, or the marker
    "None / Initializing" if the name is the empty string. *)
Theorem successful_tick_threads_context env a
    (result : ActivityPrediction num) (now : Z) :
  intervalRef a = true ->
  truthy (AI_API_KEY env) || truthy (API_KEY env) = true ->
  40 <= length (bufferRef (sensors a)) ->
  let answered :=
    settle (fresh (dom (inFlight a))) (Fulfilled (TextJSON result)) now
           (tick env a) in
  prediction answered
    = Some {| activity := activity result;
              confidence := confidence result;
              emoji := emoji result;
              reasoning := reasoning result;
              prediction_timestamp := now |}
  /\ lastPredictionRef answered = Some (activity result)
  /\ exists prompt,
       sent (tick env answered) = sent answered ++ [prompt]
       /\ prompt_previousActivity prompt
          = if String.eqb (activity result) ""%string
            then NO_PREVIOUS_ACTIVITY else activity result.
Proof.
  intros Hi Hkey Hlen answered.
  destruct (tick_sends env a Hi Hkey Hlen) as (prompt & Hfl & _).
  destruct (tick_frame env a) as (Hs & _ & _ & _ & Hint).
  assert (Hin : is_Some (inFlight (tick env a) !! fresh (dom (inFlight a)))).
  { rewrite Hfl, lookup_insert_eq. by eexists. }
  destruct (settle_in_flight _ (Fulfilled (TextJSON result)) now _ Hin)
    as (Hp & Hl & _).
  split; [exact Hp|]. split; [exact Hl|].
  assert (Hsame : sensors answered = sensors a /\ intervalRef answered = intervalRef a).
  { subst answered. unfold settle. destruct Hin as [p ->]. cbn. by rewrite Hs, Hint. }
  destruct Hsame as [Hs' Hi'].
  destruct (tick_prompt env answered) as (p & Hsent & Hprev & _);
    [by rewrite Hi'|done|by rewrite Hs'|].
  exists p. split; [done|]. rewrite Hprev. fold answered in Hl. by rewrite Hl.
Qed.


(** X11. When two calls are in flight, the label shown and the context
    after both have settled are those of the answer that arrived last,
    whichever of the two calls was made first. *)
Theorem last_response_wins i j (outcome1 outcome2 : GenerateContent num)
    (now1 now2 : Z) a :
  i <> j ->
  is_Some (inFlight a !! i) ->
  is_Some (inFlight a !! j) ->
  let both := settle j outcome2 now2 (settle i outcome1 now1 a) in
  prediction both = Some (classifyActivity_settle outcome2 now2)
  /\ lastPredictionRef both = Some (activity (classifyActivity_settle outcome2 now2))
  /\ inFlight both = delete j (delete i (inFlight a)).
Proof.
  intros Hij Hi Hj both.
  destruct (settle_in_flight i outcome1 now1 a Hi) as (_ & _ & Hfl).
  assert (Hj' : is_Some (inFlight (settle i outcome1 now1 a) !! j)).
  { rewrite Hfl, lookup_delete_ne; done. }
  destruct (settle_in_flight j outcome2 now2 _ Hj') as (Hp & Hl & Hfl').
  subst both. by rewrite Hp, Hl, Hfl', Hfl.
Qed.



(** X13. The guard at the head of [classifyActivity] lets the call
    through exactly when the key handed to the client is a non-empty
    string; that key is [AI_API_KEY] when it is non-empty and [API_KEY]
    otherwise. *)
Theorem key_guard_matches_key env (features : ProcessedFeatures num)
    (previousActivity : option string) :
  ((exists prompt,
      classifyActivity_call env features previousActivity = Returns prompt)
   <-> truthy (apiKey env) = true)
  /\ (truthy (AI_API_KEY env) = true -> apiKey env = AI_API_KEY env)
  /\ (truthy (AI_API_KEY env) = false -> apiKey env = API_KEY env).
Proof.
  unfold classifyActivity_call, apiKey.
  destruct (truthy (AI_API_KEY env)) eqn:Ha; cbn.
  - rewrite Ha. split; [|done]. split; [done|]. intros _. by eexists.
  - destruct (truthy (API_KEY env)) eqn:Hb; cbn; (split; [|done]); split;
      try done.
    + intros _. by eexists.
    + by intros [prompt Hp].
Qed.

End AnswerFacts.

(** ** What the components show *)

Section ViewFacts.
Context {num : Type} `{Number num}.
Implicit Types (a : App num) (env : Env).

(** X15. In every state the page reaches from its mount the card shows
    at least one of its three panels, and never the "Observing..." panel
    together with a prediction.  After [handleStop] the last label stays
    on the card, beside the "Awaiting Motion" panel. *)
Theorem card_never_blank env (events : list (Event num)) :
  let card := cardOf (run env initial events) in
  (awaitingMotion card = true \/ observing card = true
   \/ is_Some (shownPrediction card))
  /\ (observing card = true -> shownPrediction card = None)
  /\ (forall a label,
        prediction a = Some label ->
        awaitingMotion (cardOf (handleStop a)) = true
        /\ observing (cardOf (handleStop a)) = false
        /\ shownPrediction (cardOf (handleStop a)) = Some label).
Proof.
  intros card. subst card.
  destruct (reachable_lifecycle env events) as (_ & Hst & _).
  set (a := run env initial events) in *. unfold cardOf, ActivityCard. cbn.
  split; [|split].
  - destruct Hst as [-> | ->]; [by left|].
    destruct (prediction a) as [label|]; [right; right; by eexists|by right; left].
  - intros Hobs. apply andb_true_iff in Hobs as [_ Hnone].
    apply negb_true_iff, bool_decide_eq_false in Hnone.
    destruct (prediction a); [|done]. destruct Hnone. by eexists.
  - by intros b label Hb.
Qed.

Lemma slide_mostRecent {A : Type} (cap : nat) (hist : list A) (d : A) :
  0 < cap ->
  (let pushed := mostRecent cap hist ++ [d] in
   if (cap <? length pushed)%nat then tail pushed else pushed)
  = mostRecent cap (hist ++ [d]).
Proof.
  intros Hcap. unfold mostRecent. cbn zeta.
  rewrite !length_app, length_drop. cbn [length].
  destruct (Nat.ltb_spec cap (length hist - (length hist - cap) + 1)) as [Hlt|Hge].
  - replace (length hist + 1 - cap) with (length hist - cap + 1) by lia.
    rewrite <- drop_drop, (drop_app_le hist) by lia.
    destruct (drop (length hist - cap) hist ++ [d]); reflexivity.
  - replace (length hist + 1 - cap) with 0 by lia.
    replace (length hist - cap) with 0 by lia. reflexivity.
Qed.

Lemma chartHistory_from (shown : list (SensorData num)) : forall hist,
  fold_left pushHistory shown (mostRecent 50 hist) = mostRecent 50 (hist ++ shown).
Proof.
  induction shown as [|d shown IH]; intros hist; [by rewrite app_nil_r|].
  cbn [fold_left].
  assert (Hstep : pushHistory (mostRecent 50 hist) d = mostRecent 50 (hist ++ [d]))
    by (apply (slide_mostRecent 50 hist d); lia).
  rewrite Hstep, IH, <- app_assoc. reflexivity.
Qed.

(** X16. The chart keeps the 50 most recent of the samples it has been
    shown, in order, and never more than 50; samples are dropped oldest
    first. *)
Theorem chart_keeps_last_fifty (shown : list (SensorData num)) :
  chartHistory shown = mostRecent 50 shown
  /\ length (chartHistory shown) = Nat.min (length shown) 50
  /\ exists dropped, shown = dropped ++ chartHistory shown.
Proof.
  assert (Hc : chartHistory shown = mostRecent 50 shown)
    by apply (chartHistory_from shown []).
  split; [exact Hc|]. rewrite Hc. split; [apply mostRecent_length|].
  exists (take (length shown - 50) shown). unfold mostRecent.
  symmetry. apply take_drop.
Qed.
End ViewFacts.

(** ** The data collector *)

Section ClockFacts.
Import Decimal DecimalString.

Lemma append_cons (c : Ascii.ascii) (s t : string) :
  String.append (String c s) t = String c (String.append s t).
Proof. reflexivity. Qed.

Lemma splitAtColon_digits (d : uint) (rest : string) :
  splitAtColon (String.append (NilEmpty.string_of_uint d) (String colon rest))
  = Some (NilEmpty.string_of_uint d, rest).
Proof.
  induction d; cbn [NilEmpty.string_of_uint];
    [reflexivity|rewrite append_cons; cbn [splitAtColon]; rewrite IHd; reflexivity..].
Qed.

Lemma to_uint_not_Nil (n : nat) : Nat.to_uint n <> Nil.
Proof.
  rewrite <- (DecimalNat.Unsigned.of_to n) at 1. rewrite DecimalNat.Unsigned.to_of.
  unfold unorm. destruct (nzhead (Nat.to_uint n)); discriminate.
Qed.

Lemma toString_digits (n : nat) :
  toString n = NilEmpty.string_of_uint (Nat.to_uint n).
Proof.
  unfold toString, NilZero.string_of_uint.
  pose proof (to_uint_not_Nil n). by destruct (Nat.to_uint n).
Qed.

(** Padding a numeral keeps it a numeral of the same number. *)
Lemma padStart2_digits (d : uint) :
  exists d', padStart2 (NilEmpty.string_of_uint d) = NilEmpty.string_of_uint d'
             /\ Nat.of_uint d' = Nat.of_uint d.
Proof.
  unfold padStart2.
  destruct (String.length (NilEmpty.string_of_uint d)) as [|[|n]] eqn:Hlen.
  - exists (D0 (D0 Nil)). split; [done|]. by destruct d.
  - exists (D0 d). by split.
  - by exists d.
Qed.

Lemma readNat_padded (n : nat) : readNat (padStart2 (toString n)) = Some n.
Proof.
  rewrite toString_digits.
  destruct (padStart2_digits (Nat.to_uint n)) as (d' & -> & Hd').
  unfold readNat. by rewrite NilEmpty.usu, Hd', DecimalNat.Unsigned.of_to.
Qed.

(** X17. The clock [formatTime] prints reads back as the number of
    seconds it was given, for every number of seconds; and below 100
    minutes it is exactly five characters long ("MM:SS"). *)
Theorem formatTime_reads_back (seconds : nat) :
  readClock (formatTime seconds) = Some seconds
  /\ (seconds < 100 * 60 -> String.length (formatTime seconds) = 5).
Proof.
  split.
  - unfold readClock, formatTime. cbn zeta.
    pose proof (readNat_padded (seconds / 60)) as Hm.
    pose proof (readNat_padded (seconds mod 60)) as Hs.
    rewrite (toString_digits (seconds / 60)) in *.
    destruct (padStart2_digits (Nat.to_uint (seconds / 60))) as (d' & Hd & _).
    rewrite Hd in *.
    change (String.append ":" ?s) with (String colon s).
    rewrite splitAtColon_digits, Hm, Hs. f_equal.
    pose proof (Nat.div_mod_eq seconds 60). lia.
  - intros Hlt.
    assert (Hall : forallb (fun s => Nat.eqb (String.length (formatTime s)) 5)
                           (seq 0 (100 * 60)) = true) by (vm_compute; reflexivity).
    rewrite forallb_forall in Hall.
    apply Nat.eqb_eq, Hall, in_seq. lia.
Qed.
End ClockFacts.

Lemma formatTime_reads_back_witness :
  125 < 100 * 60
  /\ formatTime 125 = "02:05"%string
  /\ readClock "02:05" = Some 125
  /\ String.length (formatTime 125) = 5.
Proof.
  assert (Hlt : 125 < 100 * 60) by lia.
  destruct (formatTime_reads_back 125) as [Hread Hlen].
  split; [exact Hlt|]. split; [reflexivity|].
  split; [exact Hread|exact (Hlen Hlt)].
Defined.

Section CollectorFacts.
Context {num : Type} `{Number num}.
Implicit Types (p : CollectorPage num) (c : Collector num) (env : Env).

Lemma runPage_invariant (P : CollectorPage num -> Prop) env :
  (forall p e, P p -> P (stepPage env p e)) ->
  forall events p, P p -> P (runPage env p events).
Proof.
  intros Hstep events. induction events as [|e events IH]; intros p Hp; [done|].
  cbn. by apply IH, Hstep.
Qed.

Lemma selected_from_ACTIVITIES (i : nat) (name glyph : string) :
  ACTIVITIES !! i = Some (name, glyph) -> name ∈ activityNames.
Proof.
  intros Hi. unfold activityNames. apply list_elem_of_fmap.
  exists (name, glyph). split; [done|]. by eapply list_elem_of_lookup_2.
Qed.

(** X18. In every state the collection page reaches from its mount, the
    counter on display equals the number of rows recorded; every row
    carries one of the six activity names as its label; and while a
    collection is running, the label its interval writes is the label
    selected on the page. *)
Theorem collector_rows_are_labelled env (events : list (CollectorEvent num)) :
  let c := pageCollector (runPage env initialPage events) in
  count c = length (dataBuffer c)
  /\ Forall (fun row => label row ∈ activityNames) (dataBuffer c)
  /\ (isCollecting c = true -> collectionInterval c = Some (selectedLabel c))
  /\ (isCollecting c = false -> collectionInterval c = None).
Proof.
  apply (runPage_invariant
           (fun p =>
              let c := pageCollector p in
              (count c = length (dataBuffer c)
               /\ Forall (fun row => label row ∈ activityNames) (dataBuffer c)
               /\ (isCollecting c = true ->
                   collectionInterval c = Some (selectedLabel c))
               /\ (isCollecting c = false -> collectionInterval c = None))
              /\ selectedLabel c ∈ activityNames)).
  - intros p e [(Hcount & Hrows & Hon & Hoff) Hsel].
    destruct e as [e|granted| |i| |now| |confirmed]; cbn [stepPage].
    + done.
    + by destruct (sensorActive (pageCollector p)).
    + by destruct (sensorActive (pageCollector p)).
    + destruct (ACTIVITIES !! i) as [[name glyph]|] eqn:Hi; [|done].
      destruct (sensorActive (pageCollector p)); [|done].
      cbn. unfold selectActivity.
      destruct (isCollecting (pageCollector p)) eqn:Hc; cbn; rewrite ?Hc;
        repeat split; auto; try discriminate.
      by eapply selected_from_ACTIVITIES.
    + destruct (sensorActive (pageCollector p)); [|done].
      destruct (isCollecting (pageCollector p)) eqn:Hc; cbn;
        repeat split; auto; try discriminate.
    + cbn. unfold collectionTick.
      destruct (collectionInterval (pageCollector p)) as [closedOver|] eqn:Hint;
        [|cbn; rewrite ?Hint; repeat split; auto].
      destruct (getFeatures _) as [f|];
        [|cbn; rewrite ?Hint; repeat split; auto]. cbn.
      split; [|done]. split; [done|]. split; [|split; auto].
      apply Forall_app. split; [done|]. constructor; [|constructor]. cbn.
      destruct (isCollecting (pageCollector p)) eqn:Hc.
      * specialize (Hon eq_refl).
        assert (closedOver = selectedLabel (pageCollector p)) as -> by congruence.
        exact Hsel.
      * specialize (Hoff eq_refl). congruence.
    + cbn. unfold timerTick.
      destruct (timerArmed (pageCollector p)) eqn:Ht; cbn;
        repeat split; auto.
    + destruct (_ && _); [|done]. cbn. unfold clearData.
      destruct confirmed; [|done]. cbn. split; [|done].
      split; [done|]. split; [constructor|done].
  - cbn. split; [|unfold activityNames; set_solver].
    split; [done|]. split; [constructor|done].
Qed.

Lemma runPage_OfApp env (events : list (Event num)) : forall p,
  pageApp (runPage env p (map OfApp events)) = run env (pageApp p) events.
Proof.
  induction events as [|e events IH]; intros p; [done|].
  change (runPage env p (map OfApp (e :: events)))
    with (runPage env (stepPage env p (OfApp e)) (map OfApp events)).
  by rewrite IH.
Qed.

Lemma runPage_app env (events1 events2 : list (CollectorEvent num)) p :
  runPage env p (events1 ++ events2) = runPage env (runPage env p events1) events2.
Proof. unfold runPage. apply fold_left_app. Qed.

(** X19. In collection mode, activating the sensors from the collector
    also arms the analysis interval of [App], while the lifecycle state,
    the label shown and the previous-activity context are left as they
    were: with an API key configured, once 40 samples have arrived the next
    tick sends a classification request. *)
Theorem collector_arms_analysis_loop env p (granted : bool)
    (arrivals : list Arrival) :
  truthy (AI_API_KEY env) || truthy (API_KEY env) = true ->
  length (bufferRef (sensors (pageApp p))) <= MAX_BUFFER_SIZE ->
  40 <= length arrivals ->
  let activated := activateSensors granted p in
  let ticked :=
    runPage env activated (map OfApp (motions arrivals ++ [Tick])) in
  intervalRef (pageApp activated) = true
  /\ appState (pageApp activated) = appState (pageApp p)
  /\ prediction (pageApp activated) = prediction (pageApp p)
  /\ lastPredictionRef (pageApp activated) = lastPredictionRef (pageApp p)
  /\ appState (pageApp ticked) = appState (pageApp p)
  /\ length (sent (pageApp ticked)) = S (length (sent (pageApp p)))
  /\ size (inFlight (pageApp ticked)) = S (size (inFlight (pageApp p))).
Proof.
  intros Hkey Hcap Hlen activated ticked.
  split; [done|]. split; [done|]. split; [done|]. split; [done|].
  subst ticked. rewrite runPage_OfApp, run_snoc.
  set (a := pageApp activated).
  destruct (run_motions env arrivals a) as (Hs & _ & _ & Hf & Hsent).
  destruct (run_motions_frame env arrivals a) as (Hi & Hst).
  set (m := run env a (motions arrivals)) in *.
  assert (Hrec : isRecording (sensors a) = true) by reflexivity.
  assert (Hbuf : bufferRef (sensors a) = bufferRef (sensors (pageApp p))).
  { subst a activated. cbn. by destruct (negb _ && negb _). }
  assert (Hfull : 40 <= length (bufferRef (sensors m))).
  { rewrite Hs, (feed_window arrivals _ (bufferRef (sensors a)));
      [|done|by rewrite mostRecent_all by (by rewrite Hbuf)].
    rewrite mostRecent_length, length_app. unfold samplesOf.
    rewrite length_map. unfold MAX_BUFFER_SIZE.
    unfold Arrival in *. lia. }
  cbn [step].
  destruct (tick_sends env m) as (prompt & Hfl & Hsnt & _); [by rewrite Hi|done|done|].
  destruct (tick_frame env m) as (_ & -> & _).
  rewrite Hst, Hfl, Hsnt, Hsent, Hf.
  split; [done|]. split; [rewrite length_app; cbn; lia|].
  by rewrite map_size_insert_None by apply fresh_not_in_flight.
Qed.
End CollectorFacts.

Lemma collector_arms_analysis_loop_witness :
  length (bufferRef (sensors (pageApp (initialPage (num:=float))))) <= MAX_BUFFER_SIZE
  /\ 40 <= length (steady 1%float 0 40)
  /\ appState (pageApp (runPage withKey (activateSensors true initialPage)
                  (map OfApp (motions (steady 1%float 0 40) ++ [Tick])))) = IDLE
  /\ length (sent (pageApp (runPage withKey (activateSensors true initialPage)
                       (map OfApp (motions (steady 1%float 0 40) ++ [Tick])))))
     = 1.
Proof.
  assert (Hcap : length (bufferRef (sensors (pageApp (initialPage (num:=float)))))
                 <= MAX_BUFFER_SIZE) by (cbn; lia).
  assert (Hlen : 40 <= length (steady 1%float 0 40)) by (vm_compute; lia).
  destruct (collector_arms_analysis_loop withKey initialPage true
              (steady 1%float 0 40) eq_refl Hcap Hlen)
    as (_ & _ & _ & _ & Hst & Hsent & _).
  split; [exact Hcap|]. split; [exact Hlen|].
  split; [exact Hst|exact Hsent].
Defined.

(** ** More on the extracted features *)

Section FeatureFacts.

Lemma signed_nonnegative (f : spec_float) :
  signed false f -> SFleb (S754_zero false) f = true.
Proof. destruct f as [s|s| |s m e]; cbn; try done; by intros ->. Qed.

(** X20. In binary64, for every window of N >= 1 samples whose channel
    values are finite, the standard deviation extracted for each channel is
    a number not below 0 (it can be [+Infinity], when the squares
    overflow). *)
Theorem std_never_negative (data : list (SensorData float)) :
  (1 <= length data)%nat ->
  (Z.of_nat (length data) <= MAX_ARRAY_LENGTH)%Z ->
  finiteWindow data ->
  Forall (fun c => PrimFloat.leb 0 (std (map c data) (mean (map c data))) = true)
         channels.
Proof.
  intros H1 Hmax Hfin. eapply Forall_impl; [exact Hfin|].
  intros c Hc. cbn beta in Hc.
  assert (H53 : (Z.of_nat (length (map c data)) < 2 ^ 53)%Z)
    by (rewrite length_map; unfold MAX_ARRAY_LENGTH in Hmax; lia).
  assert (H1' : (1 <= length (map c data))%nat) by (by rewrite length_map).
  rewrite leb_spec. apply signed_nonnegative.
  apply std_nonneg; try done. by apply mean_notNaN.
Qed.

Local Open Scope R_scope.





End FeatureFacts.

Lemma std_never_negative_witness :
  (1 <= length mixedWindow)%nat
  /\ (Z.of_nat (length mixedWindow) <= MAX_ARRAY_LENGTH)%Z
  /\ finiteWindow mixedWindow
  /\ PrimFloat.leb 0 (std (map x mixedWindow) (mean (map x mixedWindow))) = true.
Proof.
  assert (H1 : (1 <= length mixedWindow)%nat) by (cbn; lia).
  assert (H2 : (Z.of_nat (length mixedWindow) <= MAX_ARRAY_LENGTH)%Z)
    by (vm_compute; discriminate).
  assert (H3 : finiteWindow mixedWindow) by (repeat constructor).
  pose proof (std_never_negative mixedWindow H1 H2 H3) as Hall.
  apply Forall_cons in Hall as [Hx _].
  split; [exact H1|]. split; [exact H2|]. split; [exact H3|exact Hx].
Defined.

(** ** The further properties on concrete runs *)

Lemma buffer_bounded_in_every_state_witness :
  isRecording (sensors (run withKey initial (twoTicks ++ [Stop]))) = false
  /\ length (bufferRef (sensors (run withKey initial twoTicks))) = 40
  /\ bufferRef (sensors (run withKey initial (twoTicks ++ [Stop]))) = [].
Proof.
  assert (Hoff : isRecording (sensors (run withKey initial (twoTicks ++ [Stop])))
                 = false) by (vm_compute; reflexivity).
  destruct (buffer_bounded_in_every_state withKey (twoTicks ++ [Stop]))
    as [_ Hempty].
  split; [exact Hoff|]. split; [vm_compute; reflexivity|exact (Hempty Hoff)].
Defined.


Lemma window_forgets_older_samples_witness :
  isRecording partlyFilled = true
  /\ length (bufferRef partlyFilled) = 30
  /\ MAX_BUFFER_SIZE <= length (steady 2%float 1500 100)
  /\ bufferRef (feed (steady 2%float 1500 100) partlyFilled)
     = samplesOf (steady 2%float 1500 100).
Proof.
  assert (Hrec : isRecording partlyFilled = true) by (vm_compute; reflexivity).
  assert (Hheld : length (bufferRef partlyFilled) = 30) by (vm_compute; reflexivity).
  assert (Hmany : MAX_BUFFER_SIZE <= length (steady 2%float 1500 100))
    by (vm_compute; lia).
  pose proof (window_forgets_older_samples partlyFilled (steady 2%float 1500 100)
                Hrec ltac:(rewrite Hheld; unfold MAX_BUFFER_SIZE; lia) Hmany) as Hw.
  split; [exact Hrec|]. split; [exact Hheld|]. split; [exact Hmany|].
  rewrite Hw. vm_compute. reflexivity.
Defined.

Lemma display_follows_every_event_witness :
  isRecording (initialSensors (num:=float)) = false
  /\ currentData (feed (steady 1%float 0 5 ++ [(reading 3%float, 250%Z)]) initialSensors)
     = newData (reading 3%float) 250
  /\ bufferRef (feed (steady 1%float 0 5 ++ [(reading 3%float, 250%Z)]) initialSensors)
     = [].
Proof.
  destruct (display_follows_every_event initialSensors (steady 1%float 0 5)
              (reading 3%float, 250%Z)) as [Hcur Hbuf].
  split; [reflexivity|]. split; [exact Hcur|exact (Hbuf eq_refl)].
Defined.

Lemma tick_only_sends_witness :
  length (bufferRef (sensors (run withKey initial
            ([Start true] ++ motions (steady 1%float 0 39))))) < 40
  /\ tick withKey (run withKey initial ([Start true] ++ motions (steady 1%float 0 39)))
     = run withKey initial ([Start true] ++ motions (steady 1%float 0 39)).
Proof.
  assert (Hshort : length (bufferRef (sensors (run withKey initial
            ([Start true] ++ motions (steady 1%float 0 39))))) < 40)
    by (vm_compute; lia).
  destruct (tick_only_sends withKey
              (run withKey initial ([Start true] ++ motions (steady 1%float 0 39))))
    as (_ & _ & _ & _ & Hsame).
  split; [exact Hshort|]. apply Hsame. right. left. exact Hshort.
Defined.

Lemma nothing_without_key_witness :
  truthy (AI_API_KEY withoutKey) || truthy (API_KEY withoutKey) = false
  /\ sent (run withoutKey initial twoTicks) = []
  /\ prediction (run withoutKey initial twoTicks) = None.
Proof.
  destruct (nothing_without_key withoutKey twoTicks eq_refl)
    as (Hsent & _ & Hlabel & _).
  split; [reflexivity|]. split; [exact Hsent|exact Hlabel].
Defined.

Lemma successful_tick_threads_context_witness :
  intervalRef readyToTick = true
  /\ 40 <= length (bufferRef (sensors readyToTick))
  /\ lastPredictionRef
       (settle (fresh (dom (inFlight readyToTick))) (Fulfilled (TextJSON walking))
               2300 (tick withKey readyToTick))
     = Some "Walking"%string.
Proof.
  assert (Hi : intervalRef readyToTick = true) by reflexivity.
  assert (Hlen : 40 <= length (bufferRef (sensors readyToTick)))
    by (vm_compute; lia).
  destruct (successful_tick_threads_context withKey readyToTick walking 2300
              Hi eq_refl Hlen) as (_ & Hctx & _).
  split; [exact Hi|]. split; [exact Hlen|exact Hctx].
Defined.


Lemma last_response_wins_witness :
  is_Some (inFlight (run withKey initial twoTicks) !! 0)
  /\ is_Some (inFlight (run withKey initial twoTicks) !! 1)
  /\ lastPredictionRef
       (settle 0 Rejected 4500
          (settle 1 (Fulfilled (TextJSON walking)) 4400
             (run withKey initial twoTicks)))
     = Some "Unknown"%string.
Proof.
  assert (H0 : is_Some (inFlight (run withKey initial twoTicks) !! 0))
    by (vm_compute; eexists; reflexivity).
  assert (H1 : is_Some (inFlight (run withKey initial twoTicks) !! 1))
    by (vm_compute; eexists; reflexivity).
  destruct (last_response_wins 1 0 (Fulfilled (TextJSON walking)) Rejected
              4400 4500 (run withKey initial twoTicks) ltac:(lia) H1 H0)
    as (_ & Hctx & _).
  split; [exact H0|]. split; [exact H1|exact Hctx].
Defined.

Lemma key_guard_matches_key_witness :
  truthy (AI_API_KEY withKey) = true
  /\ truthy (AI_API_KEY withoutKey) = false
  /\ apiKey withKey = Some "key"%string
  /\ apiKey withoutKey = Some ""%string
  /\ exists prompt,
       classifyActivity_call withKey zeroFeatures None = Returns prompt.
Proof.
  destruct (key_guard_matches_key withKey zeroFeatures None) as (Hiff & Hfirst & _).
  destruct (key_guard_matches_key withoutKey zeroFeatures None) as (_ & _ & Hsecond).
  split; [reflexivity|]. split; [reflexivity|].
  split; [exact (Hfirst eq_refl)|]. split; [exact (Hsecond eq_refl)|].
  apply Hiff. reflexivity.
Defined.


Lemma card_never_blank_witness :
  prediction afterFirstAnswer = Some (classifyActivity_settle (Fulfilled (TextJSON walking)) 2300)
  /\ awaitingMotion (cardOf (handleStop afterFirstAnswer)) = true
  /\ shownPrediction (cardOf (handleStop afterFirstAnswer))
     = Some (classifyActivity_settle (Fulfilled (TextJSON walking)) 2300).
Proof.
  assert (Hlabel : prediction afterFirstAnswer
                   = Some (classifyActivity_settle (Fulfilled (TextJSON walking)) 2300))
    by (vm_compute; reflexivity).
  destruct (card_never_blank (num:=float) withKey []) as (_ & _ & Hstop).
  destruct (Hstop afterFirstAnswer _ Hlabel) as (Hidle & _ & Hshown).
  split; [exact Hlabel|]. split; [exact Hidle|exact Hshown].
Defined.

Lemma collector_rows_are_labelled_witness :
  isCollecting (pageCollector (runPage withKey initialPage walkingRun)) = true
  /\ count (pageCollector (runPage withKey initialPage walkingRun)) = 1
  /\ map label (dataBuffer (pageCollector (runPage withKey initialPage walkingRun)))
     = ["Walking"%string]
  /\ collectionInterval (pageCollector (runPage withKey initialPage walkingRun))
     = Some (selectedLabel (pageCollector (runPage withKey initialPage walkingRun))).
Proof.
  assert (Hon : isCollecting (pageCollector (runPage withKey initialPage walkingRun))
                = true) by (vm_compute; reflexivity).
  destruct (collector_rows_are_labelled withKey walkingRun) as (_ & _ & Hint & _).
  split; [exact Hon|]. split; [vm_compute; reflexivity|].
  split; [vm_compute; reflexivity|exact (Hint Hon)].
Defined.



(** ** Requests that are never answered *)

Section PileUpFacts.
Context {num : Type} `{Number num}.
Implicit Types (a : App num) (env : Env).

Lemma run_app env a (before after : list (Event num)) :
  run env a (before ++ after) = run env (run env a before) after.
Proof. unfold run. by rewrite fold_left_app. Qed.

Lemma ticks_accumulate env (n : nat) : forall a,
  intervalRef a = true ->
  truthy (AI_API_KEY env) || truthy (API_KEY env) = true ->
  40 <= length (bufferRef (sensors a)) ->
  size (inFlight (run env a (repeat Tick n))) = size (inFlight a) + n
  /\ length (sent (run env a (repeat Tick n))) = length (sent a) + n.
Proof.
  induction n as [|n IH]; intros a Hi Hkey Hlen; [cbn; lia|].
  cbn [repeat]. rewrite run_cons. cbn [step].
  destruct (tick_sends env a Hi Hkey Hlen) as (prompt & Hfl & Hsent & _).
  destruct (tick_frame env a) as (Hs & _ & _ & _ & Hint).
  destruct (IH (tick env a)) as [Hsize Hlog];
    [by rewrite Hint|done|by rewrite Hs|].
  rewrite Hsize, Hlog, Hfl, Hsent, length_app.
  rewrite map_size_insert_None by apply fresh_not_in_flight. cbn. lia.
Qed.

(** X23. Requests pile up without bound: in a session with an API key, a
    full window and a backend that does not answer, after [n] ticks there
    are [n] requests in flight, for every [n]. *)
Theorem requests_pile_up env (arrivals : list Arrival) (n : nat) :
  truthy (AI_API_KEY env) || truthy (API_KEY env) = true ->
  40 <= length arrivals ->
  let silent := run env initial ([Start true] ++ motions arrivals ++ repeat Tick n) in
  size (inFlight silent) = n /\ length (sent silent) = n.
Proof.
  intros Hkey Hlen silent. subst silent.
  rewrite !run_app.
  set (started := run env initial [Start true]).
  destruct (run_motions env arrivals started) as (Hs & _ & _ & Hf & Hsent).
  destruct (run_motions_frame env arrivals started) as (Hi & _).
  destruct (ticks_accumulate env n (run env started (motions arrivals)))
    as [Hsize Hlog]; [by rewrite Hi|done| |].
  - rewrite Hs, feed_length by done. unfold MAX_BUFFER_SIZE, Arrival in *. lia.
  - rewrite Hsize, Hlog, Hf, Hsent. done.
Qed.
End PileUpFacts.

Lemma requests_pile_up_witness :
  40 <= length (steady 1%float 0 40)
  /\ size (inFlight (run withKey initial
             ([Start true] ++ motions (steady 1%float 0 40) ++ repeat Tick 7))) = 7.
Proof.
  assert (Hlen : 40 <= length (steady 1%float 0 40)) by (vm_compute; lia).
  destruct (requests_pile_up withKey (steady 1%float 0 40) 7 eq_refl Hlen)
    as [Hsize _].
  split; [exact Hlen|exact Hsize].
Defined.
